(** * Capability sandbox of devtoolkit: [sandbox_wrapper.py]

    A shallow embedding of
    [devtoolkit/src/python-runtime/sandbox_wrapper.py]: the four
    restriction classes ([RestrictedImportHook], [RestrictedFileSystem],
    [RestrictedNetwork], [RestrictedEnvironment]), the process-wide
    interception points they patch, and [run_sandboxed_script].

    Python objects that the wrapper mutates (the [builtins], [os],
    [socket], [urllib.request] and [http.client] attributes, [os.environ],
    the attributes of the guard objects) live in an explicit state that is
    threaded through every call; exceptions are results. *)

From Stdlib Require Import ZArith Ascii String List Bool Lia DecimalString.
From stdpp Require Import base option gmap strings list fin_maps.

Import ListNotations.
Local Open Scope string_scope.
Local Open Scope Z_scope.

(** ** Exceptions and results *)

Inductive exn : Type :=
| SecurityError (msg : string)        (* class SecurityError(Exception) *)
| SandboxException (msg : string)     (* class SandboxException(Exception) *)
| ImportError (msg : string)
| AttributeError (msg : string)
| KeyError (msg : string)
| FileNotFoundError (msg : string)
| TypeError (msg : string)
| ScriptError (msg : string).         (* any other exception a script raises *)

Definition is_SecurityError (e : exn) : bool :=
  match e with SecurityError _ => true | _ => false end.

(** [except (ImportError, AttributeError)] *)
Definition is_ImportError_or_AttributeError (e : exn) : bool :=
  match e with ImportError _ | AttributeError _ => true | _ => false end.

(** [except ImportError] *)
Definition is_ImportError (e : exn) : bool :=
  match e with ImportError _ => true | _ => false end.

Inductive result (A : Type) : Type :=
| Ok (a : A)
| Raise (e : exn).
Arguments Ok {A} a.
Arguments Raise {A} e.

Definition is_Ok {A} (r : result A) : bool :=
  match r with Ok _ => true | Raise _ => false end.

Definition is_SecurityError_result {A} (r : result A) : bool :=
  match r with Raise e => is_SecurityError e | Ok _ => false end.

(** ** Python string operations used by the wrapper *)

Module PyStr.

(** [s.startswith(p)] *)
Definition startswith (s p : string) : bool := String.prefix p s.

(** [s.endswith("/")] *)
Fixpoint ends_with_slash (s : string) : bool :=
  match s with
  | EmptyString => false
  | String c EmptyString => Ascii.eqb c "/"
  | String _ rest => ends_with_slash rest
  end.

(** [s.split(sep)] for a one-character separator. *)
Fixpoint split (sep : ascii) (s : string) : list string :=
  match s with
  | EmptyString => [EmptyString]
  | String c rest =>
      if Ascii.eqb c sep then EmptyString :: split sep rest
      else match split sep rest with
           | [] => [String c EmptyString]
           | h :: t => String c h :: t
           end
  end.

(** [c in s] for a character [c]. *)
Fixpoint contains_char (c : ascii) (s : string) : bool :=
  match s with
  | EmptyString => false
  | String d rest => Ascii.eqb c d || contains_char c rest
  end.

(** [x in l] for a list of strings. *)
Definition mem (x : string) (l : list string) : bool :=
  existsb (String.eqb x) l.

End PyStr.

(** ** [posixpath]: the part of [os.path] the filesystem guard calls *)

Module posixpath.

(** One iteration of the component loop of [normpath]; [new_comps] is the
    list built so far, [initial_slashes] is 0, 1 or 2. *)
Definition normpath_step (initial_slashes : nat)
    (new_comps : list string) (comp : string) : list string :=
  if String.eqb comp "" || String.eqb comp "." then new_comps
  else if negb (String.eqb comp "..")
          || (Nat.eqb initial_slashes 0 && match new_comps with [] => true | _ => false end)
          || (match new_comps with
              | [] => false
              | _ => String.eqb (List.last new_comps "") ".."
              end)
       then new_comps ++ [comp]
       else removelast new_comps.

Definition initial_slashes_of (path : string) : nat :=
  if PyStr.startswith path "/" then
    if PyStr.startswith path "//" && negb (PyStr.startswith path "///")
    then 2%nat else 1%nat
  else 0%nat.

Definition normpath (path : string) : string :=
  if String.eqb path "" then "."
  else
    let initial_slashes := initial_slashes_of path in
    let comps := fold_left (normpath_step initial_slashes)
                           (PyStr.split "/" path) [] in
    let joined := String.concat "/" comps in
    let path' := match initial_slashes with
                 | O => joined
                 | 1%nat => "/" ++ joined
                 | _ => "//" ++ joined
                 end in
    if String.eqb path' "" then "." else path'.

(** [join(a, b)] *)
Definition join (a b : string) : string :=
  if PyStr.startswith b "/" then b
  else if String.eqb a "" || PyStr.ends_with_slash a then a ++ b
  else a ++ "/" ++ b.

(** [abspath(path)], with the result of [os.getcwd()] as a parameter. *)
Definition abspath (cwd path : string) : string :=
  if PyStr.startswith path "/" then normpath path
  else normpath (join cwd path).

End posixpath.

(** ** Function values held by the interception points

    Each patched attribute holds either the function the runtime ships or
    a bound method of a guard object.  A bound method is represented by the
    attributes of its [self] that the method reads, the saved original
    among them, so calling through a chain of patches is structural. *)

Inductive import_fn : Type :=
| builtin_import
| secure_import_of (allowed_imports : list string) (original_import : import_fn).

Inductive open_fn : Type :=
| builtin_open
| secure_open_of (read_paths write_paths : list string) (allow_delete : bool)
                 (original_open : open_fn).

Inductive path_open_fn : Type :=
| pathlib_Path_open
| secure_path_open_of (read_paths write_paths : list string) (allow_delete : bool)
                      (original_open : open_fn).

Inductive remove_fn : Type :=
| posix_remove
| posix_unlink
| block_remove_of (read_paths write_paths : list string) (allow_delete : bool).

Inductive socket_fn : Type :=
| socket_class
| secure_socket_of (allowed_hosts : list string) (allowed_ports : list Z)
                   (allow_localhost : bool) (original_socket : socket_fn).

Inductive urlopen_fn : Type :=
| urllib_urlopen
| secure_urlopen_of (allowed_hosts : list string) (allowed_ports : list Z)
                    (allow_localhost : bool) (original_urlopen : urlopen_fn).

Inductive http_init_fn : Type :=
| HTTPConnection_init
| secure_http_connect_of (allowed_hosts : list string) (allowed_ports : list Z)
                         (allow_localhost : bool) (original_http_connect : http_init_fn).

(** ** Security profile (the JSON document; every key may be absent) *)

Record FilesystemProfile : Type := {
  fp_read_paths : option (list string);
  fp_write_paths : option (list string);
  fp_allow_delete : option bool }.

Record NetworkProfile : Type := {
  np_allowed_hosts : option (list string);
  np_allowed_ports : option (list Z);
  np_allow_localhost : option bool }.

Record SystemProfile : Type := {
  sp_allowed_calls : option (list string);
  sp_allow_subprocesses : option bool }.

Record EnvironmentProfile : Type := {
  ep_allow_access : option bool }.

Record SecurityProfile : Type := {
  sp_allowed_imports : option (list string);
  sp_filesystem : option FilesystemProfile;
  sp_network : option NetworkProfile;
  sp_system : option SystemProfile;
  sp_environment : option EnvironmentProfile }.

Definition DEFAULT_SECURITY_PROFILE : SecurityProfile := {|
  sp_allowed_imports := Some ["os.path"; "sys"; "typing"; "json"; "datetime"; "math"];
  sp_filesystem := Some {| fp_read_paths := Some []; fp_write_paths := Some [];
                           fp_allow_delete := Some false |};
  sp_network := Some {| np_allowed_hosts := Some []; np_allowed_ports := Some [];
                        np_allow_localhost := Some false |};
  sp_system := Some {| sp_allowed_calls := Some []; sp_allow_subprocesses := Some false |};
  sp_environment := Some {| ep_allow_access := Some false |} |}.

(** [d.get(key, dflt)] *)
Definition get {A} (field : option A) (dflt : A) : A :=
  match field with Some a => a | None => dflt end.

(** ** class RestrictedImportHook *)

Record RestrictedImportHook : Type := {
  allowed_imports : list string;
  original_import : import_fn }.

Definition dangerous_modules : list string :=
  ["subprocess"; "os.system"; "shutil.rmtree"; "pty"; "socket"; "smtplib"; "ftplib"].

(** [secure_import]: raises, or returns the call of [self.original_import]
    it ends with (the saved function and the name passed on). *)
Definition secure_import (self : RestrictedImportHook) (name : string)
  : result (import_fn * string) :=
  let module_parts := PyStr.split "." name in
  let base_module := hd "" module_parts in
  if negb (PyStr.mem base_module (allowed_imports self))
     && negb (PyStr.mem name (allowed_imports self))
  then Raise (SecurityError ("Import of '" ++ name ++ "' is not allowed"))
  else if existsb (fun dangerous => PyStr.startswith name dangerous) dangerous_modules
  then Raise (SecurityError ("Import of '" ++ name ++ "' is not allowed for security reasons"))
  else Ok (original_import self, name).

Definition bound_secure_import (self : RestrictedImportHook) : import_fn :=
  secure_import_of (allowed_imports self) (original_import self).

(** ** class RestrictedFileSystem *)

Record RestrictedFileSystem : Type := {
  read_paths : list string;
  write_paths : list string;
  allow_delete : bool;
  original_open : open_fn }.

(** [any(char in mode for char in 'wax+')] *)
Definition is_write_mode (mode : string) : bool :=
  existsb (fun char => PyStr.contains_char char mode) (list_ascii_of_string "wax+").

(** [is_path_allowed]; [cwd] is what [os.getcwd()] returns at the call. *)
Definition is_path_allowed (self : RestrictedFileSystem) (cwd : string)
    (filepath : string) (write_mode : bool) : bool :=
  let filepath := posixpath.abspath cwd filepath in
  if write_mode then
    existsb (fun allowed_path => PyStr.startswith filepath allowed_path) (write_paths self)
  else
    existsb (fun allowed_path => PyStr.startswith filepath allowed_path) (read_paths self).

Definition access_denied_msg (file : string) (write_mode : bool) : string :=
  "Access to file '" ++ file ++ "' " ++ (if write_mode then "for writing " else "")
  ++ "is not allowed".

(** [secure_open]: raises, or returns the call [self.original_open(file, mode)]. *)
Definition secure_open (self : RestrictedFileSystem) (cwd : string)
    (file mode : string) : result (open_fn * string * string) :=
  let write_mode := is_write_mode mode in
  if negb (is_path_allowed self cwd file write_mode)
  then Raise (SecurityError (access_denied_msg file write_mode))
  else Ok (original_open self, file, mode).

(** [secure_path_open]; [filepath] is [str(path_self)]. *)
Definition secure_path_open (self : RestrictedFileSystem) (cwd : string)
    (filepath mode : string) : result (open_fn * string * string) :=
  let write_mode := is_write_mode mode in
  if negb (is_path_allowed self cwd filepath write_mode)
  then Raise (SecurityError (access_denied_msg filepath write_mode))
  else Ok (original_open self, filepath, mode).

Definition block_remove (self : RestrictedFileSystem) (path : string) : result unit :=
  Raise (SecurityError "File deletion operations are not allowed").

Definition bound_secure_open (self : RestrictedFileSystem) : open_fn :=
  secure_open_of (read_paths self) (write_paths self) (allow_delete self) (original_open self).
Definition bound_secure_path_open (self : RestrictedFileSystem) : path_open_fn :=
  secure_path_open_of (read_paths self) (write_paths self) (allow_delete self)
                      (original_open self).
Definition bound_block_remove (self : RestrictedFileSystem) : remove_fn :=
  block_remove_of (read_paths self) (write_paths self) (allow_delete self).

(** ** class RestrictedNetwork *)

Record RestrictedNetwork : Type := {
  allowed_hosts : list string;
  allowed_ports : list Z;
  allow_localhost : bool;
  original_socket : option socket_fn;          (* set by __enter__ *)
  original_urlopen : option urlopen_fn;        (* set by __enter__ *)
  original_http_connect : option http_init_fn  (* set by __enter__ *) }.

Definition is_host_allowed (self : RestrictedNetwork) (host : string) : bool :=
  if PyStr.mem "*" (allowed_hosts self) then true
  else if allow_localhost self
          && (String.eqb host "localhost" || String.eqb host "127.0.0.1") then true
  else PyStr.mem host (allowed_hosts self).

Definition is_port_allowed (self : RestrictedNetwork) (port : Z) : bool :=
  match allowed_ports self with
  | [] => false
  | _ => existsb (Z.eqb port) (allowed_ports self)
  end.

(** [str(n)] for an integer. *)
Definition str_of_Z (n : Z) : string := NilZero.string_of_int (Z.to_int n).

(** The [AttributeError] of reading a missing attribute [name] of an
    instance of class [cls]. *)
Definition no_attribute (cls name : string) : exn :=
  AttributeError ("'" ++ cls ++ "' object has no attribute '" ++ name ++ "'").

(** [secure_socket]: raises, or returns the saved [socket.socket] it calls. *)
Definition secure_socket (self : RestrictedNetwork) : result socket_fn :=
  match allowed_hosts self with
  | [] => Raise (SecurityError "Network access is not allowed")
  | _ => match original_socket self with
         | Some f => Ok f
         | None => Raise (no_attribute "RestrictedNetwork" "original_socket")
         end
  end.

(** What [urlparse(url)] hands to [secure_urlopen]: the scheme, the netloc
    and the value of the [port] property ([None] when the netloc has none). *)
Record ParseResult : Type := {
  scheme : string;
  netloc : string;
  port : option Z }.

(** [x or dflt] for an optional integer: [None] and [0] are falsy. *)
Definition or_default (x : option Z) (dflt : Z) : Z :=
  match x with
  | Some p => if Z.eqb p 0 then dflt else p
  | None => dflt
  end.

(** [secure_urlopen] from [parsed_url = urlparse(url)] on; the statement
    [from urllib.parse import urlparse] it starts with is in
    [call_urlopen], where the process state is at hand. *)
Definition secure_urlopen (self : RestrictedNetwork) (parsed_url : ParseResult)
  : result urlopen_fn :=
  let host := hd "" (PyStr.split ":" (netloc parsed_url)) in
  let port := or_default (port parsed_url)
                         (if String.eqb (scheme parsed_url) "https" then 443 else 80) in
  if negb (is_host_allowed self host)
  then Raise (SecurityError ("Access to host '" ++ host ++ "' is not allowed"))
  else if negb (is_port_allowed self port)
  then Raise (SecurityError ("Access to port " ++ str_of_Z port ++ " is not allowed"))
  else match original_urlopen self with
       | Some f => Ok f
       | None => Raise (no_attribute "RestrictedNetwork" "original_urlopen")
       end.

Definition secure_http_connect (self : RestrictedNetwork) (host : string)
    (port : option Z) : result http_init_fn :=
  let port := or_default port 80 in
  if negb (is_host_allowed self host)
  then Raise (SecurityError ("Access to host '" ++ host ++ "' is not allowed"))
  else if negb (is_port_allowed self port)
  then Raise (SecurityError ("Access to port " ++ str_of_Z port ++ " is not allowed"))
  else match original_http_connect self with
       | Some f => Ok f
       | None => Raise (no_attribute "RestrictedNetwork" "original_http_connect")
       end.

(** The values that can arrive as [host] when the function is reached
    through the class attribute (see [call_http_init]): a string, an
    integer or [None]. *)
Inductive pyval : Type :=
| V_str (s : string)
| V_int (n : Z)
| V_None.

(** [v == s] for a string [s]. *)
Definition pyval_eqb_str (v : pyval) (s : string) : bool :=
  match v with
  | V_str t => String.eqb t s
  | V_int _ | V_None => false
  end.

(** [str(v)] *)
Definition py_str (v : pyval) : string :=
  match v with
  | V_str s => s
  | V_int n => str_of_Z n
  | V_None => "None"
  end.

(** [type(v).__name__] *)
Definition py_type_name (v : pyval) : string :=
  match v with
  | V_str _ => "str"
  | V_int _ => "int"
  | V_None => "NoneType"
  end.

(** [is_host_allowed] applied to any of these values; on a string it is
    [is_host_allowed]. *)
Definition is_host_allowed_value (self : RestrictedNetwork) (host : pyval) : bool :=
  if PyStr.mem "*" (allowed_hosts self) then true
  else if allow_localhost self
          && (pyval_eqb_str host "localhost" || pyval_eqb_str host "127.0.0.1") then true
  else existsb (pyval_eqb_str host) (allowed_hosts self).

(** [secure_http_connect] with such a value as [host]. *)
Definition secure_http_connect_value (self : RestrictedNetwork) (host : pyval)
    (port : option Z) : result http_init_fn :=
  let port := or_default port 80 in
  if negb (is_host_allowed_value self host)
  then Raise (SecurityError ("Access to host '" ++ py_str host ++ "' is not allowed"))
  else if negb (is_port_allowed self port)
  then Raise (SecurityError ("Access to port " ++ str_of_Z port ++ " is not allowed"))
  else match original_http_connect self with
       | Some f => Ok f
       | None => Raise (no_attribute "RestrictedNetwork" "original_http_connect")
       end.

(** ** class RestrictedEnvironment *)

Record RestrictedEnvironment : Type := {
  allow_access : bool;
  allowed_env_vars : list string;
  original_environ : option (gmap string string)  (* set by __enter__ *) }.

(** ** Sandboxed code

    A script is a sequence of the operations the guards mediate.  Each one
    goes through whatever function the interception point holds when the
    statement runs. *)

Inductive stmt : Type :=
| s_import (name : string)                          (* import name *)
| s_open (file mode : string)                       (* open(file, mode) *)
| s_Path_open (filepath : string) (mode : option string)
                                                    (* Path(filepath).open(mode), or
                                                       Path(filepath).open() *)
| s_remove (path : string)                          (* os.remove(path) *)
| s_unlink (path : string)                          (* os.unlink(path) *)
| s_socket                                          (* socket.socket() *)
| s_urlopen (parsed_url : ParseResult)              (* urllib.request.urlopen(url) *)
| s_http_connect (host : string) (port : option Z)  (* HTTPConnection(host, port), or
                                                       HTTPConnection(host) *)
| s_environ_get (k : string)                        (* os.environ[k] *)
| s_environ_set (k v : string)                      (* os.environ[k] = v *)
| s_environ_del (k : string)                        (* del os.environ[k] *)
| s_raise (e : exn).                                (* raise e *)

Inductive guard_kind : Type := G_import | G_filesystem | G_network | G_environment.

(** Ghost record of what was called, for stating ordering properties. *)
Inductive event : Type :=
| EnterCalled (g : guard_kind)
| ExitCalled (g : guard_kind)
| Executed (s : stmt).

(** ** The process state the wrapper reads and patches *)

Record World : Type := {
  cwd : string;                               (* os.getcwd() *)
  environ : gmap string string;               (* os.environ *)
  files : gmap string (list stmt);            (* script files, by absolute path *)
  importable : list string;                   (* modules the original import returns:
                                                 already loaded, so importing one
                                                 runs no module code; any other
                                                 name is taken not to be installed *)
  builtins_import : import_fn;                (* builtins.__import__ *)
  builtins_open : open_fn;                    (* builtins.open *)
  Path_open : path_open_fn;                   (* pathlib.Path.open *)
  os_remove : remove_fn;                      (* os.remove *)
  os_unlink : remove_fn;                      (* os.unlink *)
  socket_socket : socket_fn;                  (* socket.socket *)
  urllib_request_urlopen : urlopen_fn;        (* urllib.request.urlopen *)
  HTTPConnection___init__ : http_init_fn;     (* http.client.HTTPConnection.__init__ *)
  trace : list event }.

Definition set_environ (v : gmap string string) (w : World) : World :=
  {| cwd := cwd w; environ := v; files := files w; importable := importable w;
     builtins_import := builtins_import w; builtins_open := builtins_open w;
     Path_open := Path_open w; os_remove := os_remove w; os_unlink := os_unlink w;
     socket_socket := socket_socket w;
     urllib_request_urlopen := urllib_request_urlopen w;
     HTTPConnection___init__ := HTTPConnection___init__ w; trace := trace w |}.

Definition set_files (v : gmap string (list stmt)) (w : World) : World :=
  {| cwd := cwd w; environ := environ w; files := v; importable := importable w;
     builtins_import := builtins_import w; builtins_open := builtins_open w;
     Path_open := Path_open w; os_remove := os_remove w; os_unlink := os_unlink w;
     socket_socket := socket_socket w;
     urllib_request_urlopen := urllib_request_urlopen w;
     HTTPConnection___init__ := HTTPConnection___init__ w; trace := trace w |}.

Definition set_builtins_import (v : import_fn) (w : World) : World :=
  {| cwd := cwd w; environ := environ w; files := files w; importable := importable w;
     builtins_import := v; builtins_open := builtins_open w;
     Path_open := Path_open w; os_remove := os_remove w; os_unlink := os_unlink w;
     socket_socket := socket_socket w;
     urllib_request_urlopen := urllib_request_urlopen w;
     HTTPConnection___init__ := HTTPConnection___init__ w; trace := trace w |}.

Definition set_builtins_open (v : open_fn) (w : World) : World :=
  {| cwd := cwd w; environ := environ w; files := files w; importable := importable w;
     builtins_import := builtins_import w; builtins_open := v;
     Path_open := Path_open w; os_remove := os_remove w; os_unlink := os_unlink w;
     socket_socket := socket_socket w;
     urllib_request_urlopen := urllib_request_urlopen w;
     HTTPConnection___init__ := HTTPConnection___init__ w; trace := trace w |}.

Definition set_Path_open (v : path_open_fn) (w : World) : World :=
  {| cwd := cwd w; environ := environ w; files := files w; importable := importable w;
     builtins_import := builtins_import w; builtins_open := builtins_open w;
     Path_open := v; os_remove := os_remove w; os_unlink := os_unlink w;
     socket_socket := socket_socket w;
     urllib_request_urlopen := urllib_request_urlopen w;
     HTTPConnection___init__ := HTTPConnection___init__ w; trace := trace w |}.

Definition set_os_remove (v : remove_fn) (w : World) : World :=
  {| cwd := cwd w; environ := environ w; files := files w; importable := importable w;
     builtins_import := builtins_import w; builtins_open := builtins_open w;
     Path_open := Path_open w; os_remove := v; os_unlink := os_unlink w;
     socket_socket := socket_socket w;
     urllib_request_urlopen := urllib_request_urlopen w;
     HTTPConnection___init__ := HTTPConnection___init__ w; trace := trace w |}.

Definition set_os_unlink (v : remove_fn) (w : World) : World :=
  {| cwd := cwd w; environ := environ w; files := files w; importable := importable w;
     builtins_import := builtins_import w; builtins_open := builtins_open w;
     Path_open := Path_open w; os_remove := os_remove w; os_unlink := v;
     socket_socket := socket_socket w;
     urllib_request_urlopen := urllib_request_urlopen w;
     HTTPConnection___init__ := HTTPConnection___init__ w; trace := trace w |}.

Definition set_socket_socket (v : socket_fn) (w : World) : World :=
  {| cwd := cwd w; environ := environ w; files := files w; importable := importable w;
     builtins_import := builtins_import w; builtins_open := builtins_open w;
     Path_open := Path_open w; os_remove := os_remove w; os_unlink := os_unlink w;
     socket_socket := v;
     urllib_request_urlopen := urllib_request_urlopen w;
     HTTPConnection___init__ := HTTPConnection___init__ w; trace := trace w |}.

Definition set_urlopen (v : urlopen_fn) (w : World) : World :=
  {| cwd := cwd w; environ := environ w; files := files w; importable := importable w;
     builtins_import := builtins_import w; builtins_open := builtins_open w;
     Path_open := Path_open w; os_remove := os_remove w; os_unlink := os_unlink w;
     socket_socket := socket_socket w;
     urllib_request_urlopen := v;
     HTTPConnection___init__ := HTTPConnection___init__ w; trace := trace w |}.

Definition set_HTTPConnection_init (v : http_init_fn) (w : World) : World :=
  {| cwd := cwd w; environ := environ w; files := files w; importable := importable w;
     builtins_import := builtins_import w; builtins_open := builtins_open w;
     Path_open := Path_open w; os_remove := os_remove w; os_unlink := os_unlink w;
     socket_socket := socket_socket w;
     urllib_request_urlopen := urllib_request_urlopen w;
     HTTPConnection___init__ := v; trace := trace w |}.

Definition log_event (ev : event) (w : World) : World :=
  {| cwd := cwd w; environ := environ w; files := files w; importable := importable w;
     builtins_import := builtins_import w; builtins_open := builtins_open w;
     Path_open := Path_open w; os_remove := os_remove w; os_unlink := os_unlink w;
     socket_socket := socket_socket w;
     urllib_request_urlopen := urllib_request_urlopen w;
     HTTPConnection___init__ := HTTPConnection___init__ w; trace := trace w ++ [ev] |}.

(** A process in which nothing is patched and in which the modules the
    wrapper and the profiles name, [socket], [urllib.request],
    [http.client] and what these load ([ssl], [urllib.parse]) among them,
    are already loaded.  A process that has yet to load [ssl] is not of this
    form: there, once [socket.socket] holds a bound method, the first import
    of [urllib.request] or [http.client] runs [class SSLSocket(socket)] and
    raises [TypeError]. *)
Definition pristine (dir : string) (env : gmap string string)
    (fls : gmap string (list stmt)) : World :=
  {| cwd := dir; environ := env; files := fls;
     importable := ["socket"; "ssl"; "urllib.request"; "urllib.parse"; "http.client";
                    "os"; "os.path"; "sys"; "typing"; "json"; "datetime"; "math"];
     builtins_import := builtin_import; builtins_open := builtin_open;
     Path_open := pathlib_Path_open; os_remove := posix_remove; os_unlink := posix_unlink;
     socket_socket := socket_class; urllib_request_urlopen := urllib_urlopen;
     HTTPConnection___init__ := HTTPConnection_init; trace := [] |}.

(** ** Calling through an interception point *)

(** The [import name] statement calls [builtins.__import__]; the original
    finds the modules listed in [importable]. *)
Fixpoint call_import (f : import_fn) (importable : list string) (name : string)
  : result unit :=
  match f with
  | builtin_import =>
      if PyStr.mem name importable then Ok tt
      else Raise (ImportError ("No module named '" ++ name ++ "'"))
  | secure_import_of allowed orig =>
      match secure_import {| allowed_imports := allowed; original_import := orig |} name with
      | Raise e => Raise e
      | Ok (_, name') => call_import orig importable name'
      end
  end.

(** The original [open]: reading needs the file, a creating mode does not
    (what is written is not recorded). *)
Definition os_open (w : World) (file mode : string) : result (list stmt) :=
  match files w !! posixpath.abspath (cwd w) file with
  | Some content => Ok content
  | None =>
      if existsb (fun c => PyStr.contains_char c mode) (list_ascii_of_string "wax")
      then Ok []
      else Raise (FileNotFoundError file)
  end.

Fixpoint call_open (f : open_fn) (w : World) (file mode : string)
  : result (list stmt) :=
  match f with
  | builtin_open => os_open w file mode
  | secure_open_of rp wp ad orig =>
      match secure_open {| read_paths := rp; write_paths := wp; allow_delete := ad;
                           original_open := orig |} (cwd w) file mode with
      | Raise e => Raise e
      | Ok (_, file', mode') => call_open orig w file' mode'
      end
  end.

(** [Path(filepath).open(mode)].  The guard stores a bound method in the
    class attribute [Path.open]; a bound method is not bound again, so the
    path object is not passed on: [secure_path_open] receives the caller's
    first argument as [path_self] and runs with its default [mode='r'], and
    without an argument the call lacks [path_self]. *)
Definition call_Path_open (f : path_open_fn) (w : World) (filepath : string)
    (mode : option string) : result (list stmt) :=
  match f with
  | pathlib_Path_open =>
      os_open w filepath (match mode with Some m => m | None => "r" end)
  | secure_path_open_of rp wp ad orig =>
      match mode with
      | None =>
          Raise (TypeError ("RestrictedFileSystem.secure_path_open() missing 1 required "
                            ++ "positional argument: 'path_self'"))
      | Some path_self =>
          match secure_path_open {| read_paths := rp; write_paths := wp;
                                    allow_delete := ad; original_open := orig |}
                                 (cwd w) path_self "r" with
          | Raise e => Raise e
          | Ok (f', file', mode') => call_open f' w file' mode'
          end
      end
  end.

(** The original [os.remove] / [os.unlink]. *)
Definition os_delete (w : World) (path : string) : result unit * World :=
  let p := posixpath.abspath (cwd w) path in
  match files w !! p with
  | Some _ => (Ok tt, set_files (delete p (files w)) w)
  | None => (Raise (FileNotFoundError path), w)
  end.

Definition call_remove (f : remove_fn) (w : World) (path : string)
  : result unit * World :=
  match f with
  | posix_remove | posix_unlink => os_delete w path
  | block_remove_of rp wp ad =>
      (block_remove {| read_paths := rp; write_paths := wp; allow_delete := ad;
                       original_open := builtin_open |} path, w)
  end.

(** For the library's own network entry points, [Ok tt] records that the
    call reached the library function with the caller's arguments.  What
    the library does from there -- resolving names, connecting, and calling
    the entry points again from inside, as its [urlopen] does when it builds
    an [HTTPConnection] -- is outside the wrapper and is not modelled. *)
Fixpoint call_socket (f : socket_fn) : result unit :=
  match f with
  | socket_class => Ok tt
  | secure_socket_of hosts ports lh orig =>
      match secure_socket {| allowed_hosts := hosts; allowed_ports := ports;
                             allow_localhost := lh; original_socket := Some orig;
                             original_urlopen := None; original_http_connect := None |} with
      | Raise e => Raise e
      | Ok _ => call_socket orig
      end
  end.

(** [urlopen(url)] for a URL string, [parsed_url] being what [urlparse]
    makes of it.  The guarded function first executes
    [from urllib.parse import urlparse], an import like any other. *)
Fixpoint call_urlopen (f : urlopen_fn) (w : World) (parsed_url : ParseResult)
  : result unit :=
  match f with
  | urllib_urlopen => Ok tt
  | secure_urlopen_of hosts ports lh orig =>
      match call_import (builtins_import w) (importable w) "urllib.parse" with
      | Raise e => Raise e
      | Ok _ =>
          match secure_urlopen {| allowed_hosts := hosts; allowed_ports := ports;
                                  allow_localhost := lh; original_socket := None;
                                  original_urlopen := Some orig;
                                  original_http_connect := None |} parsed_url with
          | Raise e => Raise e
          | Ok _ => call_urlopen orig w parsed_url
          end
      end
  end.

(** [f(_self, host, port)]: a saved [__init__] called as a plain function,
    as [secure_http_connect] does with [self.original_http_connect].  The
    library's [__init__] starts with [self.timeout = timeout], which an
    object of these types refuses. *)
Fixpoint call_http_function (f : http_init_fn) (_self host : pyval) (port : option Z)
  : result unit :=
  match f with
  | HTTPConnection_init =>
      Raise (AttributeError ("'" ++ py_type_name _self
                             ++ "' object has no attribute 'timeout'"))
  | secure_http_connect_of hosts ports lh orig =>
      match secure_http_connect_value
              {| allowed_hosts := hosts; allowed_ports := ports;
                 allow_localhost := lh; original_socket := None;
                 original_urlopen := None;
                 original_http_connect := Some orig |} host port with
      | Raise e => Raise e
      | Ok _ => call_http_function orig _self host (Some (or_default port 80))
      end
  end.

(** [HTTPConnection(host, port)], or [HTTPConnection(host)] when [port] is
    [None].  The library's [__init__] is a function and is bound to the new
    connection.  The guard stores a bound method in the class attribute;
    a bound method is not bound again, so the new connection is not passed
    on and the caller's arguments arrive one place to the left:
    [_self = host], [host = port], [port = None]. *)
Definition call_http_init (f : http_init_fn) (host : string) (port : option Z)
  : result unit :=
  match f with
  | HTTPConnection_init => Ok tt
  | secure_http_connect_of _ _ _ _ =>
      match port with
      | None =>
          Raise (TypeError ("RestrictedNetwork.secure_http_connect() missing 1 required "
                            ++ "positional argument: 'host'"))
      | Some p => call_http_function f (V_str host) (V_int p) None
      end
  end.

(** ** Running a script: [exec(compile(script_content, ...))] *)

Definition discard {A} (r : result A) : result unit :=
  match r with Ok _ => Ok tt | Raise e => Raise e end.

Definition exec_stmt (s : stmt) (w : World) : result unit * World :=
  match s with
  | s_import name => (call_import (builtins_import w) (importable w) name, w)
  | s_open file mode => (discard (call_open (builtins_open w) w file mode), w)
  | s_Path_open filepath mode => (discard (call_Path_open (Path_open w) w filepath mode), w)
  | s_remove path => call_remove (os_remove w) w path
  | s_unlink path => call_remove (os_unlink w) w path
  | s_socket => (call_socket (socket_socket w), w)
  | s_urlopen u => (call_urlopen (urllib_request_urlopen w) w u, w)
  | s_http_connect host port => (call_http_init (HTTPConnection___init__ w) host port, w)
  | s_environ_get k =>
      match environ w !! k with
      | Some _ => (Ok tt, w)
      | None => (Raise (KeyError k), w)
      end
  | s_environ_set k v => (Ok tt, set_environ (<[k := v]> (environ w)) w)
  | s_environ_del k =>
      match environ w !! k with
      | Some _ => (Ok tt, set_environ (delete k (environ w)) w)
      | None => (Raise (KeyError k), w)
      end
  | s_raise e => (Raise e, w)
  end.

Fixpoint exec (script : list stmt) (w : World) : result unit * World :=
  match script with
  | [] => (Ok tt, w)
  | s :: rest =>
      match exec_stmt s (log_event (Executed s) w) with
      | (Ok _, w') => exec rest w'
      | (Raise e, w') => (Raise e, w')
      end
  end.

(** ** [__enter__] and [__exit__] of the four guards *)

Definition RestrictedImportHook_enter (self : RestrictedImportHook) (w : World) : World :=
  set_builtins_import (bound_secure_import self) w.

Definition RestrictedImportHook_exit (self : RestrictedImportHook) (w : World) : World :=
  set_builtins_import (original_import self) w.

Definition RestrictedFileSystem_enter (self : RestrictedFileSystem) (w : World) : World :=
  let w := set_builtins_open (bound_secure_open self) w in
  let w := set_Path_open (bound_secure_path_open self) w in
  if negb (allow_delete self) then
    let w := set_os_remove (bound_block_remove self) w in
    set_os_unlink (bound_block_remove self) w
  else w.

Definition RestrictedFileSystem_exit (self : RestrictedFileSystem) (w : World) : World :=
  set_builtins_open (original_open self) w.

Definition with_original_socket (f : socket_fn) (self : RestrictedNetwork) :=
  {| allowed_hosts := allowed_hosts self; allowed_ports := allowed_ports self;
     allow_localhost := allow_localhost self; original_socket := Some f;
     original_urlopen := original_urlopen self;
     original_http_connect := original_http_connect self |}.

Definition with_original_urlopen (f : urlopen_fn) (self : RestrictedNetwork) :=
  {| allowed_hosts := allowed_hosts self; allowed_ports := allowed_ports self;
     allow_localhost := allow_localhost self; original_socket := original_socket self;
     original_urlopen := Some f;
     original_http_connect := original_http_connect self |}.

Definition with_original_http_connect (f : http_init_fn) (self : RestrictedNetwork) :=
  {| allowed_hosts := allowed_hosts self; allowed_ports := allowed_ports self;
     allow_localhost := allow_localhost self; original_socket := original_socket self;
     original_urlopen := original_urlopen self;
     original_http_connect := Some f |}.

(** The [import m] statements inside the guard's own methods go through
    [builtins.__import__] like any other. *)
Definition import_stmt (name : string) (w : World) : result unit :=
  call_import (builtins_import w) (importable w) name.

(** The third block of [__enter__]: [try: import http.client ...
    except (ImportError, AttributeError): pass]. *)
Definition patch_http (self : RestrictedNetwork) (w : World)
  : result unit * RestrictedNetwork * World :=
  match import_stmt "http.client" w with
  | Ok _ =>
      let self := with_original_http_connect (HTTPConnection___init__ w) self in
      (Ok tt, self,
       set_HTTPConnection_init
         (secure_http_connect_of (allowed_hosts self) (allowed_ports self)
                                 (allow_localhost self) (HTTPConnection___init__ w)) w)
  | Raise e =>
      if is_ImportError_or_AttributeError e then (Ok tt, self, w)
      else (Raise e, self, w)
  end.

(** The second block: [try: import urllib.request ... except ...: pass]. *)
Definition patch_urlopen (self : RestrictedNetwork) (w : World)
  : result unit * RestrictedNetwork * World :=
  match import_stmt "urllib.request" w with
  | Ok _ =>
      let self := with_original_urlopen (urllib_request_urlopen w) self in
      (Ok tt, self,
       set_urlopen
         (secure_urlopen_of (allowed_hosts self) (allowed_ports self)
                            (allow_localhost self) (urllib_request_urlopen w)) w)
  | Raise e =>
      if is_ImportError_or_AttributeError e then (Ok tt, self, w)
      else (Raise e, self, w)
  end.

Definition RestrictedNetwork_enter (self : RestrictedNetwork) (w : World)
  : result unit * RestrictedNetwork * World :=
  let body : result unit * RestrictedNetwork * World :=
    match import_stmt "socket" w with
    | Raise e => (Raise e, self, w)
    | Ok _ =>
        let self := with_original_socket (socket_socket w) self in
        let w := set_socket_socket
                   (secure_socket_of (allowed_hosts self) (allowed_ports self)
                                     (allow_localhost self) (socket_socket w)) w in
        match patch_urlopen self w with
        | (Raise e, self, w) => (Raise e, self, w)
        | (Ok _, self, w) => patch_http self w
        end
    end in
  (* except ImportError: pass *)
  match body with
  | (Raise e, self, w) =>
      if is_ImportError e then (Ok tt, self, w) else (Raise e, self, w)
  | ok => ok
  end.

Definition RestrictedNetwork_exit (self : RestrictedNetwork) (w : World)
  : result unit * World :=
  let body : result unit * World :=
    match import_stmt "socket" w with
    | Raise e => (Raise e, w)
    | Ok _ =>
        match original_socket self with
        | Some f => (Ok tt, set_socket_socket f w)
        | None => (Raise (no_attribute "RestrictedNetwork" "original_socket"), w)
        end
    end in
  (* except (ImportError, AttributeError): pass *)
  match body with
  | (Raise e, w) =>
      if is_ImportError_or_AttributeError e then (Ok tt, w) else (Raise e, w)
  | ok => ok
  end.

(** [{k: v for k, v in os.environ.items() if k in self.allowed_env_vars}] *)
Definition restricted_env (self : RestrictedEnvironment) (env : gmap string string)
  : gmap string string :=
  filter (fun kv : string * string => PyStr.mem kv.1 (allowed_env_vars self) = true) env.

(** [os.environ.clear()] *)
Definition environ_clear (w : World) : World := set_environ ∅ w.

(** [os.environ.update(d)]: the entries of [d] win. *)
Definition environ_update (d : gmap string string) (w : World) : World :=
  set_environ (d ∪ environ w) w.

Definition RestrictedEnvironment_enter (self : RestrictedEnvironment) (w : World)
  : RestrictedEnvironment * World :=
  if negb (allow_access self) then
    let self' := {| allow_access := allow_access self;
                    allowed_env_vars := allowed_env_vars self;
                    original_environ := Some (environ w) |} in
    let restricted := restricted_env self (environ w) in
    (self', environ_update restricted (environ_clear w))
  else (self, w).

Definition RestrictedEnvironment_exit (self : RestrictedEnvironment) (w : World)
  : result unit * World :=
  if negb (allow_access self) then
    let w := environ_clear w in
    match original_environ self with
    | Some saved => (Ok tt, environ_update saved w)
    | None => (Raise (no_attribute "RestrictedEnvironment" "original_environ"), w)
    end
  else (Ok tt, w).

(** ** [apply_security_restrictions] and [run_sandboxed_script] *)

Inductive restriction : Type :=
| R_import (self : RestrictedImportHook)
| R_filesystem (self : RestrictedFileSystem)
| R_network (self : RestrictedNetwork)
| R_environment (self : RestrictedEnvironment).

Definition kind_of (r : restriction) : guard_kind :=
  match r with
  | R_import _ => G_import
  | R_filesystem _ => G_filesystem
  | R_network _ => G_network
  | R_environment _ => G_environment
  end.

(** [restriction.__enter__()] *)
Definition restriction_enter (r : restriction) (w : World)
  : result unit * restriction * World :=
  match r with
  | R_import self => (Ok tt, r, RestrictedImportHook_enter self w)
  | R_filesystem self => (Ok tt, r, RestrictedFileSystem_enter self w)
  | R_network self =>
      let '(res, self', w') := RestrictedNetwork_enter self w in (res, R_network self', w')
  | R_environment self =>
      let '(self', w') := RestrictedEnvironment_enter self w in
      (Ok tt, R_environment self', w')
  end.

(** [restriction.__exit__(None, None, None)] *)
Definition restriction_exit (r : restriction) (w : World) : result unit * World :=
  match r with
  | R_import self => (Ok tt, RestrictedImportHook_exit self w)
  | R_filesystem self => (Ok tt, RestrictedFileSystem_exit self w)
  | R_network self => RestrictedNetwork_exit self w
  | R_environment self => RestrictedEnvironment_exit self w
  end.

Definition default_filesystem : FilesystemProfile :=
  get (sp_filesystem DEFAULT_SECURITY_PROFILE)
      {| fp_read_paths := None; fp_write_paths := None; fp_allow_delete := None |}.
Definition default_network : NetworkProfile :=
  get (sp_network DEFAULT_SECURITY_PROFILE)
      {| np_allowed_hosts := None; np_allowed_ports := None; np_allow_localhost := None |}.
Definition default_environment : EnvironmentProfile :=
  get (sp_environment DEFAULT_SECURITY_PROFILE) {| ep_allow_access := None |}.

(** The constructors read [builtins.__import__], [builtins.open] and the
    working directory of the process they are called in. *)
Definition apply_security_restrictions (security_profile : SecurityProfile) (w : World)
  : list restriction :=
  let import_hook :=
    {| allowed_imports := get (sp_allowed_imports security_profile)
                              (get (sp_allowed_imports DEFAULT_SECURITY_PROFILE) []);
       original_import := builtins_import w |} in
  let fs_profile := get (sp_filesystem security_profile) default_filesystem in
  let fs_restrictor :=
    {| read_paths := map (posixpath.abspath (cwd w)) (get (fp_read_paths fs_profile) []);
       write_paths := map (posixpath.abspath (cwd w)) (get (fp_write_paths fs_profile) []);
       allow_delete := get (fp_allow_delete fs_profile) false;
       original_open := builtins_open w |} in
  let network_profile := get (sp_network security_profile) default_network in
  let network_restrictor :=
    {| allowed_hosts := get (np_allowed_hosts network_profile) [];
       allowed_ports := get (np_allowed_ports network_profile) [];
       allow_localhost := get (np_allow_localhost network_profile) false;
       original_socket := None; original_urlopen := None;
       original_http_connect := None |} in
  let env_profile := get (sp_environment security_profile) default_environment in
  let env_restrictor :=
    {| allow_access := get (ep_allow_access env_profile) false;
       allowed_env_vars := ["PATH"; "PYTHONPATH"; "LANG"; "PYTEST_CURRENT_TEST";
                            "PYTHONIOENCODING"];
       original_environ := None |} in
  [R_import import_hook; R_filesystem fs_restrictor;
   R_network network_restrictor; R_environment env_restrictor].

(** [for restriction in restrictions: restriction.__enter__()]; the guard
    objects are updated in place, so the list comes back with them. *)
Fixpoint enter_all (restrictions : list restriction) (w : World)
  : result unit * list restriction * World :=
  match restrictions with
  | [] => (Ok tt, [], w)
  | r :: rest =>
      match restriction_enter r (log_event (EnterCalled (kind_of r)) w) with
      | (Ok _, r', w') =>
          let '(res, rest', w'') := enter_all rest w' in (res, r' :: rest', w'')
      | (Raise e, r', w') => (Raise e, r' :: rest, w')
      end
  end.

(** [for restriction in reversed(restrictions): restriction.__exit__(...)],
    given the reversed list. *)
Fixpoint exit_all (reversed : list restriction) (w : World) : result unit * World :=
  match reversed with
  | [] => (Ok tt, w)
  | r :: rest =>
      match restriction_exit r (log_event (ExitCalled (kind_of r)) w) with
      | (Ok _, w') => exit_all rest w'
      | (Raise e, w') => (Raise e, w')
      end
  end.

(** [os.path.exists(script_path)] *)
Definition path_exists (w : World) (path : string) : bool :=
  match files w !! posixpath.abspath (cwd w) path with
  | Some _ => true
  | None => false
  end.

Definition run_sandboxed_script (script_path : string)
    (security_profile : SecurityProfile) (w : World) : result unit * World :=
  if negb (path_exists w script_path)
  then (Raise (SandboxException ("Script not found: " ++ script_path)), w)
  else
    let restrictions := apply_security_restrictions security_profile w in
    (* try: *)
    let '(entered, restrictions, w) := enter_all restrictions w in
    let '(outcome, w) :=
      match entered with
      | Raise e => (Raise e, w)
      | Ok _ =>
          match call_open (builtins_open w) w script_path "r" with
          | Raise e => (Raise e, w)
          | Ok script_content => exec script_content w
          end
      end in
    (* except Exception: ... raise  -- the same exception goes on *)
    (* finally: *)
    match exit_all (rev restrictions) w with
    | (Raise e, w) => (Raise e, w)
    | (Ok _, w) => (outcome, w)
    end.

(** Exit status of [main] for an outcome of [run_sandboxed_script]; an
    exception that is neither of the two classified ones is re-raised. *)
Definition main_exit_code (r : result unit) : option Z :=
  match r with
  | Ok _ => Some 0
  | Raise (SandboxException _) => Some 1
  | Raise (SecurityError _) => Some 2
  | Raise _ => None
  end.

(** The calls of [__exit__] recorded in a trace, in order. *)
Definition exits_of (t : list event) : list guard_kind :=
  omap (fun ev => match ev with ExitCalled g => Some g | _ => None end) t.

Definition enters_of (t : list event) : list guard_kind :=
  omap (fun ev => match ev with EnterCalled g => Some g | _ => None end) t.

Definition executed_of (t : list event) : list stmt :=
  omap (fun ev => match ev with Executed s => Some s | _ => None end) t.

(** ** Small runs *)

Definition hello : list stmt := [s_environ_get "PATH"].

Definition world0 : World :=
  pristine "/work" (<["PATH" := "/usr/bin"]> (<["HOME" := "/root"]> ∅))
           (<["/work/hello.py" := hello]> ∅).

(** ** The specification's reading of two predicates

    These two definitions follow the specification's words, not the code;
    they are what the code's predicates are compared with. *)

(** Path containment by components: [path] is [entry] or lies below it. *)
Definition path_components (p : string) : list string :=
  List.filter (fun c => negb (String.eqb c "")) (PyStr.split "/" p).

Fixpoint components_prefix (a b : list string) : bool :=
  match a, b with
  | [], _ => true
  | x :: a', y :: b' => String.eqb x y && components_prefix a' b'
  | _ :: _, [] => false
  end.

Definition spec_is_descendant_or_equal (entry path : string) : bool :=
  components_prefix (path_components entry) (path_components path).

Definition spec_is_path_allowed (self : RestrictedFileSystem) (cwd : string)
    (filepath : string) (write_mode : bool) : bool :=
  existsb (fun entry => spec_is_descendant_or_equal entry (posixpath.abspath cwd filepath))
          (if write_mode then write_paths self else read_paths self).

(** Host admission with the three loopback aliases the specification lists. *)
Definition spec_is_host_allowed (self : RestrictedNetwork) (host : string) : Prop :=
  In "*" (allowed_hosts self)
  \/ In host (allowed_hosts self)
  \/ (allow_localhost self = true
      /\ (host = "localhost" \/ host = "127.0.0.1" \/ host = "::1")).

(** The specification's delete rule: permitted only with [allow_delete] and
    a path that passes the write check. *)
Definition spec_delete_permitted (self : RestrictedFileSystem) (cwd path : string) : bool :=
  allow_delete self && is_path_allowed self cwd path true.

(** Activating then deactivating the guards built from a profile, as
    [run_sandboxed_script] does around the script. *)
Definition guard_stack_round_trip (security_profile : SecurityProfile) (w : World)
  : result unit * World :=
  let restrictions := apply_security_restrictions security_profile w in
  let '(_, restrictions, w) := enter_all restrictions w in
  exit_all (rev restrictions) w.

(** The guards of a profile, picked out of the list. *)
Definition fs_restrictor_of (security_profile : SecurityProfile) (w : World)
  : RestrictedFileSystem :=
  match apply_security_restrictions security_profile w with
  | [_; R_filesystem self; _; _] => self
  | _ => {| read_paths := []; write_paths := []; allow_delete := false;
            original_open := builtins_open w |}
  end.

Definition network_restrictor_of (security_profile : SecurityProfile) (w : World)
  : RestrictedNetwork :=
  match apply_security_restrictions security_profile w with
  | [_; _; R_network self; _] => self
  | _ => {| allowed_hosts := []; allowed_ports := []; allow_localhost := false;
            original_socket := None; original_urlopen := None;
            original_http_connect := None |}
  end.

Definition env_restrictor_of (security_profile : SecurityProfile) (w : World)
  : RestrictedEnvironment :=
  match apply_security_restrictions security_profile w with
  | [_; _; _; R_environment self] => self
  | _ => {| allow_access := false; allowed_env_vars := []; original_environ := None |}
  end.

(** What [secure_urlopen] takes as host and port of a parsed URL. *)
Definition url_host (u : ParseResult) : string := hd "" (PyStr.split ":" (netloc u)).
Definition url_port (u : ParseResult) : Z :=
  or_default (port u) (if String.eqb (scheme u) "https" then 443 else 80).

(** ** Guards and profiles used in the examples *)

Definition fs_write_only : RestrictedFileSystem :=
  {| read_paths := ["/srv/in"]; write_paths := ["/srv/out"]; allow_delete := false;
     original_open := builtin_open |}.

Definition fs_may_delete : RestrictedFileSystem :=
  {| read_paths := []; write_paths := []; allow_delete := true;
     original_open := builtin_open |}.


Definition net_nothing_allowed : RestrictedNetwork :=
  {| allowed_hosts := []; allowed_ports := []; allow_localhost := false;
     original_socket := None; original_urlopen := None; original_http_connect := None |}.

Definition env_default : RestrictedEnvironment :=
  {| allow_access := false;
     allowed_env_vars := ["PATH"; "PYTHONPATH"; "LANG"; "PYTEST_CURRENT_TEST";
                          "PYTHONIOENCODING"];
     original_environ := None |}.

(** A profile that opens the environment and covers the script's directory. *)
Definition open_profile : SecurityProfile :=
  {| sp_allowed_imports := Some ["os"; "sys"; "socket"];
     sp_filesystem := Some {| fp_read_paths := Some ["/work"]; fp_write_paths := Some [];
                              fp_allow_delete := Some true |};
     sp_network := Some {| np_allowed_hosts := Some ["*"]; np_allowed_ports := Some [80; 443];
                           np_allow_localhost := Some true |};
     sp_system := None;
     sp_environment := Some {| ep_allow_access := Some true |} |}.

(** [allow_access] as [apply_security_restrictions] reads it. *)
Definition profile_allow_access (security_profile : SecurityProfile) : bool :=
  get (ep_allow_access (get (sp_environment security_profile) default_environment)) false.

(** The process after the two activations that go through and the call of
    the third. *)
Definition entered_through_network (security_profile : SecurityProfile) (w : World)
  : World :=
  match apply_security_restrictions security_profile w with
  | [R_import imp; R_filesystem fs; _; _] =>
      log_event (EnterCalled G_network)
        (RestrictedFileSystem_enter fs
           (log_event (EnterCalled G_filesystem)
              (RestrictedImportHook_enter imp (log_event (EnterCalled G_import) w))))
  | _ => w
  end.

(** ** [main] *)

(** How [main] ends: [sys.exit(code)], an exception that leaves it, or a
    plain return (the interpreter then exits with status 0). *)
Inductive main_outcome : Type :=
| Exited (code : Z)
| Uncaught (e : exn)
| Returned.

Section Main.

(** [json.loads] on the profile document.  [Some p]: the document parses
    to a well-typed profile [p], that is, an object in which every section
    that is present is an object and every field that is present has the
    documented type (lists of strings, a list of integers for the ports,
    booleans for the flags).  [None]: [json.JSONDecodeError].  A document
    that parses to anything else is outside this model; with a section that
    is [null], for one, [apply_security_restrictions] raises
    [AttributeError] before the [try] is entered. *)
Variable json_loads : string -> option SecurityProfile.

(** [main], with [sys.argv] as [argv]. *)
Definition main (argv : list string) (w : World) : main_outcome * World :=
  match argv with
  | [] | [_] => (Exited 1, w)                 (* len(sys.argv) < 2 *)
  | _ :: script_path :: rest =>
      let parsed :=
        match rest with
        | [] => Some DEFAULT_SECURITY_PROFILE
        | document :: _ => json_loads document
        end in
      match parsed with
      | None => (Exited 1, w)                 (* except json.JSONDecodeError *)
      | Some security_profile =>
          match run_sandboxed_script script_path security_profile w with
          | (Ok _, w') => (Returned, w')
          | (Raise (SandboxException _), w') => (Exited 1, w')
          | (Raise (SecurityError _), w') => (Exited 2, w')
          | (Raise e, w') => (Uncaught e, w')  (* except Exception: ... raise *)
          end
      end
  end.

End Main.

(** The profile document in which every key is absent. *)
Definition empty_profile : SecurityProfile :=
  {| sp_allowed_imports := None; sp_filesystem := None; sp_network := None;
     sp_system := None; sp_environment := None |}.

Definition hook_os_only : RestrictedImportHook :=
  {| allowed_imports := ["os"; "socketserver"]; original_import := builtin_import |}.

Definition fs_nothing : RestrictedFileSystem :=
  {| read_paths := []; write_paths := []; allow_delete := false;
     original_open := builtin_open |}.

Definition fs_root_readable : RestrictedFileSystem :=
  {| read_paths := ["/"]; write_paths := []; allow_delete := false;
     original_open := builtin_open |}.

Definition fs_work_readable : RestrictedFileSystem :=
  {| read_paths := ["/work"]; write_paths := []; allow_delete := false;
     original_open := builtin_open |}.

Definition net_localhost_only : RestrictedNetwork :=
  {| allowed_hosts := []; allowed_ports := [8080]; allow_localhost := true;
     original_socket := Some socket_class; original_urlopen := Some urllib_urlopen;
     original_http_connect := Some HTTPConnection_init |}.

(** A stand-in for [json.loads] that knows one document. *)
Definition loads_open_profile (document : string) : option SecurityProfile :=
  if String.eqb document "open" then Some open_profile else None.

(** A component that [normpath] keeps as it is: not empty, not a dot
    entry, and free of separators. *)
Definition clean_component (c : string) : Prop :=
  c <> "" /\ c <> "." /\ c <> ".." /\ PyStr.contains_char "/" c = false.

(** The leading separators [normpath] puts back. *)
Definition leading_slashes (n : nat) : string :=
  match n with
  | O => ""
  | 1%nat => "/"
  | _ => "//"
  end.

(** A profile with its [system] section replaced. *)
Definition with_system (sys : option SystemProfile) (security_profile : SecurityProfile)
  : SecurityProfile :=
  {| sp_allowed_imports := sp_allowed_imports security_profile;
     sp_filesystem := sp_filesystem security_profile;
     sp_network := sp_network security_profile;
     sp_system := sys;
     sp_environment := sp_environment security_profile |}.

(** A profile whose only read path is relative. *)
Definition relative_profile : SecurityProfile :=
  {| sp_allowed_imports := None;
     sp_filesystem := Some {| fp_read_paths := Some ["data"]; fp_write_paths := None;
                              fp_allow_delete := None |};
     sp_network := None; sp_system := None; sp_environment := None |}.

(** * Properties *)

(** ** Strings and paths *)

Lemma mem_In x l : PyStr.mem x l = true <-> In x l.
Proof.
  unfold PyStr.mem. rewrite existsb_exists. split.
  - intros (y & Hy & E). apply String.eqb_eq in E. now subst.
  - intros H. exists x. split; [assumption | apply String.eqb_refl].
Qed.

Lemma startswith_refl s : PyStr.startswith s s = true.
Proof.
  unfold PyStr.startswith. induction s as [|c s IH]; simpl; [reflexivity|].
  destruct (Ascii.ascii_dec c c); [assumption | congruence].
Qed.


Example abspath_trailing : posixpath.abspath "/home/u" "/foo/" = "/foo".
Proof. reflexivity. Qed.
Example abspath_relative : posixpath.abspath "/home/u" "../x/./y" = "/home/x/y".
Proof. reflexivity. Qed.
Example abspath_two_slashes : posixpath.abspath "/" "//foo/../bar" = "//bar".
Proof. reflexivity. Qed.
Example abspath_root_dotdot : posixpath.abspath "/" "/../a" = "/a".
Proof. reflexivity. Qed.

(** ** The import guard *)

Lemma dangerous_name_raises (self : RestrictedImportHook) (name : string) :
  In name dangerous_modules ->
  exists msg, secure_import self name = Raise (SecurityError msg).
Proof.
  intros H. unfold secure_import.
  destruct (negb (PyStr.mem (hd "" (PyStr.split "." name)) (allowed_imports self))
            && negb (PyStr.mem name (allowed_imports self))).
  - eexists; reflexivity.
  - assert (D : existsb (fun dangerous => PyStr.startswith name dangerous)
                        dangerous_modules = true).
    { apply existsb_exists. exists name. split; [exact H | apply startswith_refl]. }
    rewrite D. eexists; reflexivity.
Qed.

(** Once the hook is installed, the statement [import name] raises for
    every deny-listed name, whatever function the hook saved. *)
Lemma import_stmt_denies_dangerous allowed orig (w : World) (name : string) :
  builtins_import w = secure_import_of allowed orig ->
  In name dangerous_modules ->
  exists msg, import_stmt name w = Raise (SecurityError msg).
Proof.
  intros Hw Hin. unfold import_stmt. rewrite Hw. simpl.
  destruct (dangerous_name_raises
              {| allowed_imports := allowed; original_import := orig |} name Hin)
    as [msg E].
  rewrite E. eauto.
Qed.

(** C4. For every module name in the fixed deny-list, the guarded import
    raises a security error whatever the profile allows, also when the
    profile lists that very name: no [allowed_imports] disables the list.
    This holds of [secure_import] itself and of any import made through the
    installed hook. *)
Theorem secure_import_denies_dangerous (self : RestrictedImportHook) (name : string)
    (H : In name dangerous_modules) :
  (exists msg, secure_import self name = Raise (SecurityError msg))
  /\ (forall modules, exists msg,
        call_import (bound_secure_import self) modules name = Raise (SecurityError msg)).
Proof.
  split; [now apply dangerous_name_raises |].
  intros modules. unfold bound_secure_import. simpl.
  destruct (dangerous_name_raises
              {| allowed_imports := allowed_imports self;
                 original_import := original_import self |} name H) as [msg E].
  rewrite E. eauto.
Qed.

Lemma secure_import_denies_dangerous_witness :
  In "socket" dangerous_modules
  /\ exists msg,
       secure_import {| allowed_imports := ["socket"]; original_import := builtin_import |}
                     "socket" = Raise (SecurityError msg).
Proof.
  assert (H : In "socket" dangerous_modules) by (simpl; tauto).
  split; [exact H | exact (proj1 (secure_import_denies_dangerous _ "socket" H))].
Defined.

(** With an allow-list that names it, the denial is the deny-list's. *)
Example import_socket_allowed_still_denied :
  secure_import {| allowed_imports := ["socket"]; original_import := builtin_import |}
                "socket"
  = Raise (SecurityError "Import of 'socket' is not allowed for security reasons").
Proof. reflexivity. Qed.

(** ** The network guard's host predicate *)

(** C6 (as amended). [is_host_allowed host] holds iff ["*"] is in
    [allowed_hosts], or [host] is, or [allow_localhost] is set and [host]
    is ["localhost"] or ["127.0.0.1"]. *)
Theorem is_host_allowed_iff (self : RestrictedNetwork) (host : string) :
  is_host_allowed self host = true
  <-> In "*" (allowed_hosts self)
      \/ In host (allowed_hosts self)
      \/ (allow_localhost self = true /\ (host = "localhost" \/ host = "127.0.0.1")).
Proof.
  unfold is_host_allowed.
  destruct (PyStr.mem "*" (allowed_hosts self)) eqn:Hstar.
  - apply mem_In in Hstar. tauto.
  - assert (Hn : ~ In "*" (allowed_hosts self)).
    { intros Hin. apply mem_In in Hin. congruence. }
    destruct (allow_localhost self) eqn:Hl; simpl.
    + destruct (String.eqb host "localhost") eqn:E1; simpl.
      * apply String.eqb_eq in E1. tauto.
      * destruct (String.eqb host "127.0.0.1") eqn:E2.
        -- apply String.eqb_eq in E2. tauto.
        -- apply String.eqb_neq in E1, E2. rewrite mem_In. tauto.
    + rewrite mem_In. split; [tauto |].
      intros [?|[?|[? _]]]; [contradiction | assumption | discriminate].
Qed.

(** C6, counterexample. With [allow_localhost] set and no host listed,
    ["::1"] is refused although the specification counts it as loopback. *)
Lemma is_host_allowed_ipv6_loopback_refused :
  let self := {| allowed_hosts := []; allowed_ports := []; allow_localhost := true;
                 original_socket := None; original_urlopen := None;
                 original_http_connect := None |} in
  ~ (is_host_allowed self "::1" = true <-> spec_is_host_allowed self "::1").
Proof.
  intros self [_ H].
  assert (S : spec_is_host_allowed self "::1").
  { right; right. split; [reflexivity | right; right; reflexivity]. }
  specialize (H S). vm_compute in H. discriminate.
Qed.

(** ** The filesystem guard's predicates *)





(** With nothing listed for writing, no write-classified open goes through,
    whatever is listed for reading. *)
Example secure_open_write_needs_write_path :
  secure_open fs_root_readable "/work" "/work/hello.py" "w"
  = Raise (SecurityError "Access to file '/work/hello.py' for writing is not allowed").
Proof. reflexivity. Qed.

(** C3, at the failing input.  With ["/foo"] as the only write path, the
    check lets ["/foobar"] through, a path that is neither ["/foo"] nor
    below it: the comparison is a prefix test on the two strings. *)
Theorem is_path_allowed_accepts_sibling_prefix :
  let profile :=
    {| sp_allowed_imports := None;
       sp_filesystem := Some {| fp_read_paths := Some []; fp_write_paths := Some ["/foo"];
                                fp_allow_delete := None |};
       sp_network := None; sp_system := None; sp_environment := None |} in
  let self := fs_restrictor_of profile (pristine "/work" ∅ ∅) in
  write_paths self = ["/foo"]
  /\ is_path_allowed self "/work" "/foobar" true = true
  /\ spec_is_path_allowed self "/work" "/foobar" true = false
  /\ is_path_allowed self "/work" "/foo/../foobar/x" true = true
  /\ spec_is_path_allowed self "/work" "/foo/x" true = true.
Proof. vm_compute. repeat split; reflexivity. Qed.

(** ** Deletion under the filesystem guard *)

(** C2 (as amended). Entered in a process whose [os.remove] and
    [os.unlink] are the originals, the guard refuses every delete when
    [allow_delete] is false, whatever [write_paths] holds; when
    [allow_delete] is true it does not intercept deletion at all, and the
    delete goes to the original function whether or not the path passes
    the write check. *)
Theorem delete_gated_by_allow_delete_only (self : RestrictedFileSystem) (w : World)
    (path : string)
    (Hr : os_remove w = posix_remove) (Hu : os_unlink w = posix_unlink) :
  let w' := RestrictedFileSystem_enter self w in
  exec_stmt (s_remove path) w'
  = (if allow_delete self then os_delete w' path
     else (Raise (SecurityError "File deletion operations are not allowed"), w'))
  /\ exec_stmt (s_unlink path) w'
     = (if allow_delete self then os_delete w' path
        else (Raise (SecurityError "File deletion operations are not allowed"), w')).
Proof.
  unfold RestrictedFileSystem_enter.
  destruct (allow_delete self); simpl; [rewrite Hr, Hu|]; split; reflexivity.
Qed.

Lemma delete_gated_by_allow_delete_only_witness :
  let w' := RestrictedFileSystem_enter fs_write_only world0 in
  exec_stmt (s_remove "/srv/out/log.txt") w'
  = (Raise (SecurityError "File deletion operations are not allowed"), w').
Proof.
  exact (proj1 (delete_gated_by_allow_delete_only fs_write_only world0
                  "/srv/out/log.txt" eq_refl eq_refl)).
Defined.

(** C2, counterexample. With [allow_delete] true and no write path at all,
    deleting an existing file succeeds while the guard is active, although
    the path fails the write check. *)
Lemma delete_outside_write_paths_succeeds :
  let w' := RestrictedFileSystem_enter fs_may_delete world0 in
  spec_delete_permitted fs_may_delete (cwd w') "/work/hello.py" = false
  /\ fst (exec_stmt (s_remove "/work/hello.py") w') = Ok tt
  /\ path_exists (snd (exec_stmt (s_remove "/work/hello.py") w')) "/work/hello.py" = false.
Proof. vm_compute. repeat split; reflexivity. Qed.

(** ** Connections under the network guard *)




Lemma is_host_allowed_value_str (self : RestrictedNetwork) (host : string) :
  is_host_allowed_value self (V_str host) = is_host_allowed self host.
Proof. reflexivity. Qed.



(** The host that is checked is cut from the netloc at the first colon, so
    a netloc with user information is judged by what stands before it. *)
Example url_host_of_userinfo_netloc :
  url_host {| scheme := "http"; netloc := "localhost:80@example.org"; port := None |}
  = "localhost".
Proof. reflexivity. Qed.

(** The same call through the three entry points, one host and one port
    allowed: [urlopen] goes through, the connection object does not. *)
Example one_host_one_port :
  let self := {| allowed_hosts := ["example.org"]; allowed_ports := [443];
                 allow_localhost := false; original_socket := None;
                 original_urlopen := None; original_http_connect := None |} in
  let w' := snd (RestrictedNetwork_enter self world0) in
  fst (exec_stmt (s_urlopen {| scheme := "https"; netloc := "example.org";
                               port := None |}) w') = Ok tt
  /\ fst (exec_stmt (s_http_connect "example.org" (Some 443)) w')
     = Raise (SecurityError "Access to host '443' is not allowed")
  /\ fst (exec_stmt s_socket w') = Ok tt.
Proof. vm_compute. repeat split; reflexivity. Qed.


(** The two default-deny cases of the guarded [urlopen]: no port listed,
    and no host listed with a host that is not an accepted loopback name. *)
Lemma secure_urlopen_default_deny (self : RestrictedNetwork) (u : ParseResult) :
  allowed_ports self = []
  \/ (allowed_hosts self = []
      /\ (allow_localhost self = false
          \/ (url_host u <> "localhost" /\ url_host u <> "127.0.0.1"))) ->
  is_SecurityError_result (secure_urlopen self u) = true.
Proof.
  intros H. unfold secure_urlopen. fold (url_host u). fold (url_port u).
  destruct (is_host_allowed self (url_host u)) eqn:Hh; [|reflexivity].
  destruct (is_port_allowed self (url_port u)) eqn:Hp; [|reflexivity].
  exfalso. destruct H as [Hports | (Hhosts & Hl)].
  - unfold is_port_allowed in Hp. rewrite Hports in Hp. discriminate.
  - unfold is_host_allowed in Hh. rewrite Hhosts in Hh. cbn in Hh.
    destruct Hl as [Hl | (N1 & N2)].
    + rewrite Hl in Hh. discriminate.
    + apply String.eqb_neq in N1, N2. rewrite N1, N2 in Hh.
      destruct (allow_localhost self); discriminate.
Qed.

(** With no host listed, no socket is created. *)
Lemma secure_socket_default_deny (self : RestrictedNetwork) :
  allowed_hosts self = [] ->
  secure_socket self = Raise (SecurityError "Network access is not allowed").
Proof. intros H. unfold secure_socket. rewrite H. reflexivity. Qed.

(** ** The environment guard *)

(** C7. With [allow_access] false, whatever the sandboxed code does --
    reads, writes and deletions of variables among it -- leaving the guard
    puts back exactly the mapping found on entry: the same keys with the
    same values. *)
Theorem environment_guard_restores (self : RestrictedEnvironment) (w : World)
    (script : list stmt) (H : allow_access self = false) :
  let entered := RestrictedEnvironment_enter self w in
  let ran := snd (exec script (snd entered)) in
  fst (RestrictedEnvironment_exit (fst entered) ran) = Ok tt
  /\ environ (snd (RestrictedEnvironment_exit (fst entered) ran)) = environ w.
Proof.
  unfold RestrictedEnvironment_enter, RestrictedEnvironment_exit.
  rewrite H. cbn. split; [reflexivity |].
  apply (right_id_L ∅ (∪)).
Qed.

Lemma environment_guard_restores_witness :
  let script := [s_environ_set "TOKEN" "x"; s_environ_del "PATH"; s_environ_get "LANG"] in
  let entered := RestrictedEnvironment_enter env_default world0 in
  let ran := snd (exec script (snd entered)) in
  environ (snd entered) = <["PATH" := "/usr/bin"]> ∅
  /\ environ ran = <["TOKEN" := "x"]> ∅
  /\ environ (snd (RestrictedEnvironment_exit (fst entered) ran)) = environ world0.
Proof.
  split; [vm_compute; reflexivity |].
  split; [vm_compute; reflexivity |].
  exact (proj2 (environment_guard_restores env_default world0
                  [s_environ_set "TOKEN" "x"; s_environ_del "PATH"; s_environ_get "LANG"]
                  eq_refl)).
Defined.

(** ** The guards together: activation and deactivation in a run *)

(** With the import hook installed, the network guard's own
    [import socket] is vetoed: [__enter__] raises before it patches
    anything, and so does [__exit__]. *)
Lemma RestrictedNetwork_enter_under_hook (self : RestrictedNetwork) (w : World)
    allowed orig :
  builtins_import w = secure_import_of allowed orig ->
  exists msg, RestrictedNetwork_enter self w = (Raise (SecurityError msg), self, w).
Proof.
  intros Hw. unfold RestrictedNetwork_enter.
  destruct (import_stmt_denies_dangerous allowed orig w "socket" Hw) as [msg E].
  { simpl; tauto. }
  rewrite E. simpl. eauto.
Qed.

Lemma RestrictedNetwork_exit_under_hook (self : RestrictedNetwork) (w : World)
    allowed orig :
  builtins_import w = secure_import_of allowed orig ->
  exists msg, RestrictedNetwork_exit self w = (Raise (SecurityError msg), w).
Proof.
  intros Hw. unfold RestrictedNetwork_exit.
  destruct (import_stmt_denies_dangerous allowed orig w "socket" Hw) as [msg E].
  { simpl; tauto. }
  rewrite E. simpl. eauto.
Qed.

Lemma builtins_import_entered (security_profile : SecurityProfile) (w : World) :
  exists allowed,
    builtins_import (entered_through_network security_profile w)
    = secure_import_of allowed (builtins_import w).
Proof.
  exists (get (sp_allowed_imports security_profile)
              (get (sp_allowed_imports DEFAULT_SECURITY_PROFILE) [])).
  unfold entered_through_network, apply_security_restrictions.
  unfold RestrictedFileSystem_enter. cbn [allow_delete].
  destruct (negb _); reflexivity.
Qed.

(** Activation of the guards of any profile, in any process, stops at the
    network guard with a security error. *)
Lemma enter_all_stops_at_network (security_profile : SecurityProfile) (w : World) :
  exists msg,
    enter_all (apply_security_restrictions security_profile w) w
    = (Raise (SecurityError msg),
       apply_security_restrictions security_profile w,
       entered_through_network security_profile w).
Proof.
  destruct (builtins_import_entered security_profile w) as [allowed Hb].
  destruct (RestrictedNetwork_enter_under_hook
              (network_restrictor_of security_profile w)
              (entered_through_network security_profile w) allowed _ Hb) as [msg E].
  exists msg.
  unfold apply_security_restrictions, entered_through_network, network_restrictor_of in *.
  cbn [enter_all restriction_enter kind_of apply_security_restrictions] in *.
  rewrite E. reflexivity.
Qed.

(** What the [finally] loop does after that. *)
Lemma exit_all_after_failed_activation (security_profile : SecurityProfile) (w : World) :
  let w1 := log_event (ExitCalled G_environment)
                      (entered_through_network security_profile w) in
  exists msg,
    exit_all (rev (apply_security_restrictions security_profile w))
             (entered_through_network security_profile w)
    = if profile_allow_access security_profile
      then (Raise (SecurityError msg), log_event (ExitCalled G_network) w1)
      else (Raise (no_attribute "RestrictedEnvironment" "original_environ"), environ_clear w1).
Proof.
  intros w1.
  destruct (builtins_import_entered security_profile w) as [allowed Hb].
  destruct (RestrictedNetwork_exit_under_hook
              (network_restrictor_of security_profile w)
              (log_event (ExitCalled G_network) w1) allowed _ Hb) as [msg E].
  exists msg. subst w1.
  unfold network_restrictor_of, profile_allow_access in *.
  unfold apply_security_restrictions in E at 1.
  unfold apply_security_restrictions at 1.
  cbn [rev app exit_all restriction_exit kind_of] in *.
  unfold RestrictedEnvironment_exit at 1. cbn [allow_access original_environ].
  destruct (get (ep_allow_access (get (sp_environment security_profile)
                                      default_environment)) false).
  - cbn [negb]. cbn [exit_all restriction_exit kind_of]. rewrite E. reflexivity.
  - reflexivity.
Qed.

Lemma run_sandboxed_script_outcome (script_path : string)
    (security_profile : SecurityProfile) (w : World) :
  path_exists w script_path = true ->
  let w1 := log_event (ExitCalled G_environment)
                      (entered_through_network security_profile w) in
  exists msg,
    run_sandboxed_script script_path security_profile w
    = if profile_allow_access security_profile
      then (Raise (SecurityError msg), log_event (ExitCalled G_network) w1)
      else (Raise (no_attribute "RestrictedEnvironment" "original_environ"), environ_clear w1).
Proof.
  intros Hex w1. unfold run_sandboxed_script. rewrite Hex. cbn [negb].
  destruct (enter_all_stops_at_network security_profile w) as [m1 E1].
  destruct (exit_all_after_failed_activation security_profile w) as [m2 E2].
  cbv zeta in E2. rewrite E1, E2. exists m2. subst w1.
  destruct (profile_allow_access security_profile); reflexivity.
Qed.

Lemma guard_stack_round_trip_outcome (security_profile : SecurityProfile) (w : World) :
  let w1 := log_event (ExitCalled G_environment)
                      (entered_through_network security_profile w) in
  exists msg,
    guard_stack_round_trip security_profile w
    = if profile_allow_access security_profile
      then (Raise (SecurityError msg), log_event (ExitCalled G_network) w1)
      else (Raise (no_attribute "RestrictedEnvironment" "original_environ"), environ_clear w1).
Proof.
  intros w1. unfold guard_stack_round_trip.
  destruct (enter_all_stops_at_network security_profile w) as [m1 E1].
  destruct (exit_all_after_failed_activation security_profile w) as [m2 E2].
  cbv zeta in E2. rewrite E1, E2. exists m2. reflexivity.
Qed.

Lemma trace_entered_through_network (security_profile : SecurityProfile) (w : World) :
  trace (entered_through_network security_profile w)
  = (trace w ++ [EnterCalled G_import; EnterCalled G_filesystem; EnterCalled G_network])%list.
Proof.
  unfold entered_through_network, apply_security_restrictions, RestrictedFileSystem_enter.
  cbn [allow_delete]. destruct (negb _); cbn; rewrite <- !app_assoc; reflexivity.
Qed.

(** In every run of an existing script the [finally] loop calls
    [__exit__] on the environment guard, on the network guard only if the
    former returned, and on no other guard; no statement of the script
    runs. *)
Lemma run_sandboxed_script_trace (script_path : string)
    (security_profile : SecurityProfile) (w : World) :
  path_exists w script_path = true ->
  trace (snd (run_sandboxed_script script_path security_profile w))
  = (trace w
     ++ [EnterCalled G_import; EnterCalled G_filesystem; EnterCalled G_network;
         ExitCalled G_environment]
     ++ (if profile_allow_access security_profile then [ExitCalled G_network] else []))%list.
Proof.
  intros Hex.
  destruct (run_sandboxed_script_outcome script_path security_profile w Hex) as [msg E].
  cbv zeta in E. rewrite E.
  destruct (profile_allow_access security_profile);
    unfold environ_clear, set_environ, log_event; cbn [snd trace];
    rewrite trace_entered_through_network, <- !app_assoc; reflexivity.
Qed.

(** By construction the script is opened through the patched [open]: with
    the filesystem guard entered, a script path that fails the read check
    cannot be opened for reading. *)
Lemma guarded_open_of_uncovered_script (self : RestrictedFileSystem) (w : World)
    (script_path : string) :
  is_path_allowed self (cwd w) script_path false = false ->
  let w' := RestrictedFileSystem_enter self w in
  call_open (builtins_open w') w' script_path "r"
  = Raise (SecurityError (access_denied_msg script_path false)).
Proof.
  intros Hr.
  assert (B : forall w', cwd w' = cwd w ->
                call_open (bound_secure_open self) w' script_path "r"
                = Raise (SecurityError (access_denied_msg script_path false))).
  { intros w' Hc. unfold bound_secure_open. cbn [call_open]. unfold secure_open.
    rewrite Hc. change (is_write_mode "r") with false.
    match goal with
    | |- context [is_path_allowed ?r (cwd w) script_path false] =>
        change (is_path_allowed r (cwd w) script_path false)
          with (is_path_allowed self (cwd w) script_path false)
    end.
    rewrite Hr. reflexivity. }
  unfold RestrictedFileSystem_enter.
  destruct (negb (allow_delete self)); apply B; reflexivity.
Qed.

Lemma patches_entered_through_network (security_profile : SecurityProfile) (w : World) :
  let w1 := entered_through_network security_profile w in
  let fs := fs_restrictor_of security_profile w in
  Path_open w1 = bound_secure_path_open fs
  /\ builtins_open w1 = bound_secure_open fs
  /\ (exists allowed, builtins_import w1 = secure_import_of allowed (builtins_import w))
  /\ os_remove w1 = (if allow_delete fs then os_remove w else bound_block_remove fs).
Proof.
  cbv zeta. split; [|split; [|split]]; try apply builtins_import_entered;
    unfold entered_through_network, fs_restrictor_of, apply_security_restrictions,
      RestrictedFileSystem_enter; cbn [allow_delete];
    destruct (get (fp_allow_delete _) false); reflexivity.
Qed.

(** C1, on the code.  Activation followed by deactivation does not put the
    interception points back.  For every profile, the round trip over the
    guards of an unpatched process leaves [Path.open], [builtins.open] and
    [builtins.__import__] patched.  Taken alone, the filesystem guard's
    [__exit__] restores [builtins.open] only, leaving [Path.open] and, when
    deletion is blocked, [os.remove]; the network guard's restores
    [socket.socket] only, leaving [urlopen] and [HTTPConnection.__init__]. *)
Theorem deactivation_leaves_patches :
  (forall security_profile dir env fls,
      let w := pristine dir env fls in
      let w' := snd (guard_stack_round_trip security_profile w) in
      Path_open w' <> Path_open w
      /\ builtins_open w' <> builtins_open w
      /\ builtins_import w' <> builtins_import w)
  /\ (forall (self : RestrictedFileSystem) (w : World),
        let w' := RestrictedFileSystem_exit self (RestrictedFileSystem_enter self w) in
        builtins_open w' = original_open self
        /\ Path_open w' = bound_secure_path_open self
        /\ os_remove w' = (if allow_delete self then os_remove w
                           else bound_block_remove self))
  /\ (forall (self : RestrictedNetwork) dir env fls,
        let entered := RestrictedNetwork_enter self (pristine dir env fls) in
        let w' := snd (RestrictedNetwork_exit (snd (fst entered)) (snd entered)) in
        socket_socket w' = socket_class
        /\ urllib_request_urlopen w' <> urllib_urlopen
        /\ HTTPConnection___init__ w' <> HTTPConnection_init).
Proof.
  split; [|split].
  - intros security_profile dir env fls w w'.
    destruct (guard_stack_round_trip_outcome security_profile w) as [msg E].
    destruct (patches_entered_through_network security_profile w)
      as (Hp & Ho & (allowed & Hi) & _).
    cbv zeta in *. subst w'. rewrite E.
    destruct (profile_allow_access security_profile);
      unfold environ_clear, set_environ, log_event;
      cbn [snd Path_open builtins_open builtins_import];
      rewrite Hp, Ho, Hi; repeat split; discriminate.
  - intros self w. unfold RestrictedFileSystem_exit, RestrictedFileSystem_enter.
    destruct (allow_delete self); repeat split; reflexivity.
  - intros self dir env fls. cbn. repeat split; discriminate.
Qed.

(** The round trip at the default profile: the environment is left empty
    and five interception points stay patched. *)
Example round_trip_default_profile :
  let w' := snd (guard_stack_round_trip DEFAULT_SECURITY_PROFILE world0) in
  environ w' = ∅
  /\ builtins_import w'
     = secure_import_of ["os.path"; "sys"; "typing"; "json"; "datetime"; "math"]
                        builtin_import
  /\ builtins_open w' = secure_open_of [] [] false builtin_open
  /\ Path_open w' = secure_path_open_of [] [] false builtin_open
  /\ os_remove w' = block_remove_of [] [] false
  /\ os_unlink w' = block_remove_of [] [] false.
Proof. vm_compute. repeat split; reflexivity. Qed.

(** No run gets all four guards activated: for every
    profile and process, activation stops at the network guard with a
    security error, raised by the import hook installed just before.  The
    [finally] loop then stops at the first [__exit__] that raises.  At the
    default profile that is the environment guard's, so the two guards that
    were activated are never deactivated; with environment access allowed
    it is the network guard's, with the same effect. *)
Theorem deactivation_loop_aborts :
  (forall security_profile (w : World),
      exists msg,
        fst (fst (enter_all (apply_security_restrictions security_profile w) w))
        = Raise (SecurityError msg))
  /\ (let r := run_sandboxed_script "hello.py" DEFAULT_SECURITY_PROFILE world0 in
      enters_of (trace (snd r)) = [G_import; G_filesystem; G_network]
      /\ exits_of (trace (snd r)) = [G_environment]
      /\ fst r = Raise (AttributeError "'RestrictedEnvironment' object has no attribute 'original_environ'"))
  /\ (let r := run_sandboxed_script "hello.py" open_profile world0 in
      enters_of (trace (snd r)) = [G_import; G_filesystem; G_network]
      /\ exits_of (trace (snd r)) = [G_environment; G_network]
      /\ fst r = Raise (SecurityError
                          "Import of 'socket' is not allowed for security reasons")).
Proof.
  split; [|split].
  - intros security_profile w.
    destruct (enter_all_stops_at_network security_profile w) as [msg E].
    exists msg. rewrite E. reflexivity.
  - vm_compute. repeat split; reflexivity.
  - vm_compute. repeat split; reflexivity.
Qed.

(** C9, on the code.  At the default profile, with the script present and
    harmless, the script's path fails the read check, and no statement of
    the script runs -- but the exception that leaves
    [run_sandboxed_script] is not a security error and does not come from
    the guarded [open]: activation has already failed, and the environment
    guard's [__exit__] raises [AttributeError] in the [finally] loop.  Even
    a profile that covers the script's directory never gets the script
    opened. *)
Theorem default_profile_run_outcome :
  (let w := world0 in
   let r := run_sandboxed_script "hello.py" DEFAULT_SECURITY_PROFILE w in
   path_exists w "hello.py" = true
   /\ is_path_allowed (fs_restrictor_of DEFAULT_SECURITY_PROFILE w) (cwd w) "hello.py" false
      = false
   /\ executed_of (trace (snd r)) = []
   /\ is_SecurityError_result (fst r) = false
   /\ fst r = Raise (AttributeError "'RestrictedEnvironment' object has no attribute 'original_environ'")
   /\ main_exit_code (fst r) = None)
  /\ (let w := world0 in
      let r := run_sandboxed_script "hello.py" open_profile w in
      is_path_allowed (fs_restrictor_of open_profile w) (cwd w) "hello.py" false = true
      /\ executed_of (trace (snd r)) = []
      /\ is_SecurityError_result (fst r) = true).
Proof. split; vm_compute; repeat split; reflexivity. Qed.

(** * Further properties of the wrapper *)

(** ** [secure_import] *)

Lemma no_dangerous_prefix_iff (name : string) :
  existsb (fun dangerous => PyStr.startswith name dangerous) dangerous_modules = false
  <-> forall d, In d dangerous_modules -> PyStr.startswith name d = false.
Proof.
  split.
  - intros H d Hd. destruct (PyStr.startswith name d) eqn:E; [|reflexivity].
    assert (X : existsb (fun dangerous => PyStr.startswith name dangerous)
                        dangerous_modules = true)
      by (apply existsb_exists; eauto).
    congruence.
  - intros H. destruct (existsb _ dangerous_modules) eqn:E; [|reflexivity].
    apply existsb_exists in E. destruct E as (d & Hd & Hs).
    rewrite (H d Hd) in Hs. discriminate.
Qed.

(** X1. [secure_import] hands the import on to the saved function, with the
    name unchanged, exactly when the name or its first dotted segment is in
    [allowed_imports] and no deny-listed name is a prefix of it; in every
    other case it raises [SecurityError]. *)
Theorem secure_import_passes_iff (self : RestrictedImportHook) (name : string) :
  (secure_import self name = Ok (original_import self, name)
   <-> (In (hd "" (PyStr.split "." name)) (allowed_imports self)
        \/ In name (allowed_imports self))
       /\ (forall d, In d dangerous_modules -> PyStr.startswith name d = false))
  /\ is_SecurityError_result (secure_import self name)
     = negb (is_Ok (secure_import self name)).
Proof.
  unfold secure_import.
  destruct (PyStr.mem (hd "" (PyStr.split "." name)) (allowed_imports self)) eqn:Hb;
  destruct (PyStr.mem name (allowed_imports self)) eqn:Hn;
  destruct (existsb (fun dangerous => PyStr.startswith name dangerous) dangerous_modules)
    eqn:Hd; cbn [negb andb is_Ok is_SecurityError_result is_SecurityError];
  (split; [|reflexivity]);
  rewrite <- no_dangerous_prefix_iff, <- !mem_In, Hb, Hn, Hd;
  split; try discriminate; try tauto;
  intros [[X|X] Y]; discriminate.
Qed.

(** X2. The deny-list is matched by prefix: a module whose name merely
    begins with a deny-listed name is refused too, whatever the profile
    allows. *)
Theorem secure_import_denies_by_prefix (self : RestrictedImportHook)
    (name dangerous : string)
    (Hd : In dangerous dangerous_modules)
    (Hp : PyStr.startswith name dangerous = true) :
  exists msg, secure_import self name = Raise (SecurityError msg).
Proof.
  unfold secure_import.
  destruct (negb _ && negb _); [eexists; reflexivity |].
  assert (D : existsb (fun d => PyStr.startswith name d) dangerous_modules = true)
    by (apply existsb_exists; eauto).
  rewrite D. eexists; reflexivity.
Qed.

Lemma secure_import_denies_by_prefix_witness :
  In "socketserver" (allowed_imports hook_os_only)
  /\ exists msg, secure_import hook_os_only "socketserver" = Raise (SecurityError msg).
Proof.
  split; [simpl; tauto |].
  apply (secure_import_denies_by_prefix hook_os_only "socketserver" "socket");
    [simpl; tauto | reflexivity].
Defined.

(** X3. The import hook's two methods are inverse on the process it was
    built in: entering and leaving gives back the very same process state. *)
Theorem import_hook_round_trip (self : RestrictedImportHook) (w : World)
    (H : original_import self = builtins_import w) :
  RestrictedImportHook_exit self (RestrictedImportHook_enter self w) = w.
Proof.
  unfold RestrictedImportHook_exit, RestrictedImportHook_enter, set_builtins_import.
  destruct w; cbn in *. rewrite H. reflexivity.
Qed.

Lemma import_hook_round_trip_witness :
  builtins_import (RestrictedImportHook_enter hook_os_only world0)
    = secure_import_of ["os"; "socketserver"] builtin_import
  /\ RestrictedImportHook_exit hook_os_only (RestrictedImportHook_enter hook_os_only world0)
     = world0.
Proof.
  split; [reflexivity |].
  apply (import_hook_round_trip hook_os_only world0). reflexivity.
Defined.

(** X4. What the hooked import lets through, the function it wraps would
    have imported as well, and the name carries no deny-listed prefix: the
    hook only ever narrows. *)
Theorem hooked_import_only_narrows (self : RestrictedImportHook)
    (modules : list string) (name : string)
    (H : call_import (bound_secure_import self) modules name = Ok tt) :
  call_import (original_import self) modules name = Ok tt
  /\ (forall d, In d dangerous_modules -> PyStr.startswith name d = false)
  /\ (In (hd "" (PyStr.split "." name)) (allowed_imports self)
      \/ In name (allowed_imports self)).
Proof.
  destruct self as [allowed orig].
  unfold bound_secure_import in H. cbn [call_import allowed_imports original_import] in *.
  unfold secure_import in H. cbn [allowed_imports original_import] in H.
  destruct (PyStr.mem (hd "" (PyStr.split "." name)) allowed) eqn:Hb;
  destruct (PyStr.mem name allowed) eqn:Hn;
  destruct (existsb (fun dangerous => PyStr.startswith name dangerous) dangerous_modules)
    eqn:Hd; cbn [negb andb] in H; try discriminate;
  (split; [exact H |]); (split; [now apply no_dangerous_prefix_iff |]);
  rewrite <- !mem_In, Hb, Hn; tauto.
Qed.

Lemma hooked_import_only_narrows_witness :
  call_import builtin_import (importable world0) "os" = Ok tt.
Proof.
  apply (hooked_import_only_narrows hook_os_only (importable world0) "os").
  reflexivity.
Defined.

(** ** Paths and the filesystem guard *)

Lemma startswith_slash_inv (s : string) :
  PyStr.startswith s "/" = true -> exists rest, s = String "/" rest.
Proof.
  unfold PyStr.startswith. intros H. apply String.prefix_correct in H.
  destruct s as [|c rest]; simpl in H; [discriminate |].
  injection H as ->. eauto.
Qed.

Lemma startswith_cons_slash (s : string) : PyStr.startswith (String "/" s) "/" = true.
Proof. destruct s; reflexivity. Qed.

Lemma normpath_absolute (path : string) :
  PyStr.startswith path "/" = true ->
  PyStr.startswith (posixpath.normpath path) "/" = true.
Proof.
  intros H. destruct (startswith_slash_inv path H) as [rest ->].
  unfold posixpath.normpath. cbn [String.eqb].
  unfold posixpath.initial_slashes_of. rewrite H.
  destruct (PyStr.startswith (String "/" rest) "//"
            && negb (PyStr.startswith (String "/" rest) "///"));
    match goal with |- context [String.concat "/" ?l] =>
      generalize (String.concat "/" l) end;
    intros joined;
    [exact (startswith_cons_slash (String "/" joined))
    | exact (startswith_cons_slash joined)].
Qed.

Lemma join_absolute (a b : string) :
  PyStr.startswith a "/" = true -> PyStr.startswith (posixpath.join a b) "/" = true.
Proof.
  intros H. unfold posixpath.join.
  destruct (PyStr.startswith b "/") eqn:Hb; [exact Hb |].
  destruct (startswith_slash_inv a H) as [rest ->].
  destruct (String.eqb (String "/" rest) "" || PyStr.ends_with_slash (String "/" rest)).
  - exact (startswith_cons_slash (rest ++ b)).
  - exact (startswith_cons_slash (rest ++ "/" ++ b)).
Qed.

(** [abspath] of anything is absolute when the working directory is. *)
Lemma abspath_absolute (cwd path : string) :
  PyStr.startswith cwd "/" = true ->
  PyStr.startswith (posixpath.abspath cwd path) "/" = true.
Proof.
  intros H. unfold posixpath.abspath.
  destruct (PyStr.startswith path "/") eqn:Hp.
  - now apply normpath_absolute.
  - apply normpath_absolute. now apply join_absolute.
Qed.

Lemma existsb_nil_false {A} (f : A -> bool) : existsb f [] = false.
Proof. reflexivity. Qed.

(** X5. Default deny: with both path lists empty, the guarded [open] and
    the guarded [Path.open] raise [SecurityError] for every file and every
    mode. *)
Theorem empty_path_lists_deny_every_open (self : RestrictedFileSystem)
    (cwd file mode : string)
    (Hr : read_paths self = []) (Hw : write_paths self = []) :
  secure_open self cwd file mode
    = Raise (SecurityError (access_denied_msg file (is_write_mode mode)))
  /\ secure_path_open self cwd file mode
     = Raise (SecurityError (access_denied_msg file (is_write_mode mode))).
Proof.
  assert (D : forall m, is_path_allowed self cwd file m = false).
  { intros m. unfold is_path_allowed. rewrite Hr, Hw. destruct m; reflexivity. }
  unfold secure_open, secure_path_open. rewrite D. split; reflexivity.
Qed.

Lemma empty_path_lists_deny_every_open_witness :
  secure_open fs_nothing "/work" "/work/hello.py" "r"
  = Raise (SecurityError "Access to file '/work/hello.py' is not allowed").
Proof.
  exact (proj1 (empty_path_lists_deny_every_open fs_nothing "/work" "/work/hello.py" "r"
                  eq_refl eq_refl)).
Defined.

(** X6. An entry ["/"] opens the whole tree: with an absolute working
    directory, every path, however it is spelled, passes the read check. *)
Theorem root_entry_allows_every_read (self : RestrictedFileSystem)
    (cwd filepath : string)
    (Hc : PyStr.startswith cwd "/" = true)
    (Hroot : In "/" (read_paths self)) :
  is_path_allowed self cwd filepath false = true.
Proof.
  unfold is_path_allowed. apply existsb_exists.
  exists "/". split; [exact Hroot | now apply abspath_absolute].
Qed.

Lemma root_entry_allows_every_read_witness :
  is_path_allowed fs_root_readable "/work" "../etc/passwd" false = true.
Proof.
  apply (root_entry_allows_every_read fs_root_readable "/work" "../etc/passwd");
    [reflexivity | simpl; tauto].
Defined.

Lemma abspath_of_absolute (cwd cwd' path : string) :
  PyStr.startswith path "/" = true ->
  posixpath.abspath cwd path = posixpath.abspath cwd' path.
Proof. intros H. unfold posixpath.abspath. rewrite H. reflexivity. Qed.

(** X7. A path a profile declares is itself admitted by the guard built
    from that profile, in the mode it was declared for, when it is checked
    in the working directory the guard was built in, or in any working
    directory if the declared path is absolute.  (A relative entry is made
    absolute once, at construction; the guard does not follow a later
    change of directory.) *)
Theorem declared_path_is_allowed (security_profile : SecurityProfile) (w : World)
    (fp : FilesystemProfile) (write_mode : bool) (declared : list string)
    (p cwd_at_check : string)
    (Hf : sp_filesystem security_profile = Some fp)
    (Hl : (if write_mode then fp_write_paths fp else fp_read_paths fp) = Some declared)
    (Hp : In p declared)
    (Hc : cwd_at_check = cwd w \/ PyStr.startswith p "/" = true) :
  is_path_allowed (fs_restrictor_of security_profile w) cwd_at_check p write_mode = true.
Proof.
  assert (E : posixpath.abspath cwd_at_check p = posixpath.abspath (cwd w) p).
  { destruct Hc as [-> | Ha]; [reflexivity | now apply abspath_of_absolute]. }
  unfold fs_restrictor_of, apply_security_restrictions, is_path_allowed.
  cbn [read_paths write_paths]. rewrite Hf, E. cbn [get].
  destruct write_mode; rewrite Hl; cbn [get]; apply existsb_exists;
    exists (posixpath.abspath (cwd w) p);
    (split; [apply in_map; exact Hp | apply startswith_refl]).
Qed.

Lemma declared_path_is_allowed_witness :
  is_path_allowed (fs_restrictor_of open_profile world0) "/tmp" "/work" false = true.
Proof.
  apply (declared_path_is_allowed open_profile world0
           {| fp_read_paths := Some ["/work"]; fp_write_paths := Some [];
              fp_allow_delete := Some true |} false ["/work"] "/work" "/tmp");
    [reflexivity | reflexivity | simpl; tauto | right; reflexivity].
Defined.

(** Without that condition the statement fails: a relative entry built in
    one directory is not admitted from another. *)
Example relative_entry_after_chdir :
  let self := fs_restrictor_of relative_profile world0 in
  read_paths self = ["/work/data"]
  /\ is_path_allowed self "/work" "data" false = true
  /\ is_path_allowed self "/tmp" "data" false = false.
Proof. vm_compute. repeat split; reflexivity. Qed.

(** X8. Once the guard is entered, [Path(p).open(mode)] never looks at
    [p]: it is decided and carried out as the guarded [open(mode, 'r')],
    the mode string taken for the file name; and [Path(p).open()] raises
    [TypeError]. *)
Theorem guarded_Path_open_ignores_the_path (self : RestrictedFileSystem) (w : World)
    (filepath mode : string) :
  let w' := RestrictedFileSystem_enter self w in
  exec_stmt (s_Path_open filepath (Some mode)) w' = exec_stmt (s_open mode "r") w'
  /\ is_Ok (fst (exec_stmt (s_Path_open filepath None) w')) = false
  /\ is_SecurityError_result (fst (exec_stmt (s_Path_open filepath None) w')) = false.
Proof.
  unfold RestrictedFileSystem_enter.
  destruct (negb (allow_delete self));
    cbn [exec_stmt Path_open builtins_open set_os_unlink set_os_remove set_Path_open
         set_builtins_open];
    unfold bound_secure_path_open, bound_secure_open; cbn [call_Path_open call_open];
    unfold secure_path_open, secure_open;
    (split; [|split; reflexivity]);
    match goal with
    | |- context [negb (is_path_allowed ?s ?c mode (is_write_mode "r"))] =>
        destruct (negb (is_path_allowed s c mode (is_write_mode "r")))
    end; reflexivity.
Qed.

(** The request names a file outside the read paths, the mode string names
    one inside: the guard lets the call through and opens the latter. *)
Example Path_open_opens_the_mode :
  let w' := RestrictedFileSystem_enter fs_work_readable world0 in
  fst (exec_stmt (s_open "/etc/passwd" "r") w')
    = Raise (SecurityError "Access to file '/etc/passwd' is not allowed")
  /\ call_Path_open (Path_open w') w' "/etc/passwd" (Some "hello.py") = Ok hello.
Proof. vm_compute. repeat split; reflexivity. Qed.

(** X9. Whatever the guarded [open] returns, the function it wraps returns
    for the same arguments, and the path passed the check for the mode's
    class: the guard only ever narrows. *)
Theorem guarded_open_only_narrows (self : RestrictedFileSystem) (w : World)
    (file mode : string) (content : list stmt)
    (H : call_open (bound_secure_open self) w file mode = Ok content) :
  call_open (original_open self) w file mode = Ok content
  /\ is_path_allowed self (cwd w) file (is_write_mode mode) = true.
Proof.
  destruct self as [rp wp ad orig].
  unfold bound_secure_open in H. cbn [call_open read_paths write_paths allow_delete
    original_open] in *.
  unfold secure_open in H. cbn [original_open] in H.
  destruct (is_path_allowed _ (cwd w) file (is_write_mode mode)) eqn:E;
    cbn [negb] in H; [|discriminate].
  split; [exact H | reflexivity].
Qed.

Lemma guarded_open_only_narrows_witness :
  call_open builtin_open world0 "hello.py" "r" = Ok hello
  /\ is_path_allowed fs_work_readable "/work" "hello.py" false = true.
Proof.
  apply (guarded_open_only_narrows fs_work_readable world0 "hello.py" "r" hello).
  vm_compute. reflexivity.
Defined.

(** ** The network guard's predicates *)

(** X10. The port check is plain membership: the separate test for an
    empty list changes nothing. *)
Theorem is_port_allowed_iff (self : RestrictedNetwork) (p : Z) :
  is_port_allowed self p = true <-> In p (allowed_ports self).
Proof.
  unfold is_port_allowed.
  assert (M : existsb (Z.eqb p) (allowed_ports self) = true <-> In p (allowed_ports self)).
  { rewrite existsb_exists. split.
    - intros (q & Hq & E). apply Z.eqb_eq in E. now subst.
    - intros H. exists p. split; [exact H | apply Z.eqb_refl]. }
  destruct (allowed_ports self) eqn:E; [|exact M].
  split; [discriminate | intros []].
Qed.

(** X11. [allow_localhost] alone does not open the network: with no host
    listed, the host check accepts both loopback names, yet creating a
    socket is refused. *)
Theorem localhost_without_hosts_has_no_socket (self : RestrictedNetwork)
    (Hh : allowed_hosts self = []) (Hl : allow_localhost self = true) :
  is_host_allowed self "localhost" = true
  /\ is_host_allowed self "127.0.0.1" = true
  /\ secure_socket self = Raise (SecurityError "Network access is not allowed").
Proof.
  unfold is_host_allowed, secure_socket. rewrite Hh, Hl. repeat split; reflexivity.
Qed.

Lemma localhost_without_hosts_has_no_socket_witness :
  is_host_allowed net_localhost_only "localhost" = true
  /\ is_Ok (secure_http_connect net_localhost_only "localhost" (Some 8080)) = true
  /\ secure_socket net_localhost_only
     = Raise (SecurityError "Network access is not allowed").
Proof.
  pose proof (localhost_without_hosts_has_no_socket net_localhost_only eq_refl eq_refl)
    as (H1 & _ & H3).
  split; [exact H1 | split; [reflexivity | exact H3]].
Defined.

(** X12. A missing port and port 0 are both judged as the default port:
    443 for the scheme [https] and 80 for every other scheme in [urlopen],
    80 in the HTTP connection. *)
Theorem absent_or_zero_port_is_default (self : RestrictedNetwork)
    (sch loc host : string) :
  let dflt := if String.eqb sch "https" then 443 else 80 in
  secure_urlopen self {| scheme := sch; netloc := loc; port := None |}
    = secure_urlopen self {| scheme := sch; netloc := loc; port := Some dflt |}
  /\ secure_urlopen self {| scheme := sch; netloc := loc; port := Some 0 |}
     = secure_urlopen self {| scheme := sch; netloc := loc; port := Some dflt |}
  /\ secure_http_connect self host None = secure_http_connect self host (Some 80)
  /\ secure_http_connect self host (Some 0) = secure_http_connect self host (Some 80).
Proof.
  unfold secure_urlopen, secure_http_connect. cbn [scheme netloc port or_default].
  destruct (String.eqb sch "https"); repeat split; reflexivity.
Qed.

(** ** The environment guard *)

(** X13. With [allow_access] false, what the sandboxed code sees after
    [__enter__] is the old environment cut down to the variables named in
    [allowed_env_vars]: those keep their values, every other name is
    absent; the full mapping is saved on the guard. *)
Theorem environment_enter_visible (self : RestrictedEnvironment) (w : World)
    (k : string) (H : allow_access self = false) :
  environ (snd (RestrictedEnvironment_enter self w)) !! k
  = (if PyStr.mem k (allowed_env_vars self) then environ w !! k else None)
  /\ original_environ (fst (RestrictedEnvironment_enter self w)) = Some (environ w).
Proof.
  unfold RestrictedEnvironment_enter. rewrite H.
  cbn [negb fst snd environ environ_update environ_clear set_environ original_environ].
  split; [|reflexivity].
  rewrite (right_id_L ∅ (∪)). unfold restricted_env.
  rewrite map_lookup_filter.
  destruct (environ w !! k) as [v|]; cbn.
  - destruct (PyStr.mem k (allowed_env_vars self)) eqn:E.
    + rewrite option_guard_True by reflexivity. reflexivity.
    + rewrite option_guard_False by (cbn; congruence). reflexivity.
  - destruct (PyStr.mem k (allowed_env_vars self)); reflexivity.
Qed.

Lemma environment_enter_visible_witness :
  environ (snd (RestrictedEnvironment_enter env_default world0)) !! "HOME" = None
  /\ environ world0 !! "HOME" = Some "/root".
Proof.
  split; [| reflexivity].
  exact (proj1 (environment_enter_visible env_default world0 "HOME" eq_refl)).
Defined.

(** ** [run_sandboxed_script] and [main] *)

Lemma environ_entered_through_network (security_profile : SecurityProfile) (w : World) :
  environ (entered_through_network security_profile w) = environ w.
Proof.
  unfold entered_through_network, apply_security_restrictions, RestrictedFileSystem_enter.
  cbn [allow_delete]. destruct (negb _); reflexivity.
Qed.

Lemma executed_of_app (t1 t2 : list event) :
  executed_of (t1 ++ t2)%list = (executed_of t1 ++ executed_of t2)%list.
Proof. apply omap_app. Qed.

Lemma exits_of_app (t1 t2 : list event) :
  exits_of (t1 ++ t2)%list = (exits_of t1 ++ exits_of t2)%list.
Proof. apply omap_app. Qed.

Lemma run_sandboxed_script_missing (script_path : string)
    (security_profile : SecurityProfile) (w : World) :
  path_exists w script_path = false ->
  run_sandboxed_script script_path security_profile w
  = (Raise (SandboxException ("Script not found: " ++ script_path)), w).
Proof. intros H. unfold run_sandboxed_script. rewrite H. reflexivity. Qed.

Lemma run_sandboxed_script_raises (script_path : string)
    (security_profile : SecurityProfile) (w : World) :
  is_Ok (fst (run_sandboxed_script script_path security_profile w)) = false.
Proof.
  destruct (path_exists w script_path) eqn:Hex.
  - destruct (run_sandboxed_script_outcome script_path security_profile w Hex) as [msg E].
    cbv zeta in E. rewrite E. destruct (profile_allow_access security_profile); reflexivity.
  - rewrite run_sandboxed_script_missing by exact Hex. reflexivity.
Qed.

(** X14. What a run does to [os.environ]: for an existing script, a
    profile that denies environment access leaves the process with an empty
    environment, and a profile that allows it leaves the environment as it
    was. *)
Theorem run_effect_on_environ (script_path : string)
    (security_profile : SecurityProfile) (w : World)
    (Hex : path_exists w script_path = true) :
  environ (snd (run_sandboxed_script script_path security_profile w))
  = if profile_allow_access security_profile then environ w else ∅.
Proof.
  destruct (run_sandboxed_script_outcome script_path security_profile w Hex) as [msg E].
  cbv zeta in E. rewrite E.
  destruct (profile_allow_access security_profile);
    cbn [snd environ log_event environ_clear set_environ]; [|reflexivity].
  apply environ_entered_through_network.
Qed.

Lemma run_effect_on_environ_witness :
  environ (snd (run_sandboxed_script "hello.py" DEFAULT_SECURITY_PROFILE world0)) = ∅
  /\ environ world0 <> ∅.
Proof.
  split.
  - exact (run_effect_on_environ "hello.py" DEFAULT_SECURITY_PROFILE world0 eq_refl).
  - intros H. apply (f_equal (fun m : gmap string string => m !! "HOME")) in H.
    vm_compute in H. discriminate.
Defined.

(** X15. No run ever returns normally or executes a statement of the
    script: for every path, profile and process the outcome is an exception
    and the statements recorded as executed are those recorded before. *)
Theorem run_never_executes_script (script_path : string)
    (security_profile : SecurityProfile) (w : World) :
  is_Ok (fst (run_sandboxed_script script_path security_profile w)) = false
  /\ executed_of (trace (snd (run_sandboxed_script script_path security_profile w)))
     = executed_of (trace w).
Proof.
  split; [apply run_sandboxed_script_raises |].
  destruct (path_exists w script_path) eqn:Hex.
  - rewrite run_sandboxed_script_trace by exact Hex.
    rewrite !executed_of_app.
    destruct (profile_allow_access security_profile); cbn; apply app_nil_r.
  - rewrite run_sandboxed_script_missing by exact Hex. reflexivity.
Qed.

(** X16. How [main] ends for an existing script and a profile document
    that parses to a well-typed profile (or no document, hence the default
    profile): with status 2 when the profile allows environment access, and
    with an uncaught [AttributeError] when it does not.  Documents that
    parse to an ill-typed profile are not covered. *)
Theorem main_outcome_for_existing_script (json_loads : string -> option SecurityProfile)
    (prog script_path : string) (rest : list string)
    (security_profile : SecurityProfile) (w : World)
    (Hp : match rest with
          | [] => Some DEFAULT_SECURITY_PROFILE
          | document :: _ => json_loads document
          end = Some security_profile)
    (Hex : path_exists w script_path = true) :
  fst (main json_loads (prog :: script_path :: rest) w)
  = if profile_allow_access security_profile then Exited 2
    else Uncaught (no_attribute "RestrictedEnvironment" "original_environ").
Proof.
  unfold main. rewrite Hp.
  destruct (run_sandboxed_script_outcome script_path security_profile w Hex) as [msg E].
  cbv zeta in E. rewrite E.
  destruct (profile_allow_access security_profile); reflexivity.
Qed.

Lemma main_outcome_for_existing_script_witness :
  fst (main loads_open_profile ["sandbox_wrapper.py"; "hello.py"; "open"] world0)
    = Exited 2
  /\ fst (main loads_open_profile ["sandbox_wrapper.py"; "hello.py"] world0)
     = Uncaught (AttributeError "'RestrictedEnvironment' object has no attribute 'original_environ'").
Proof.
  split.
  - exact (main_outcome_for_existing_script loads_open_profile "sandbox_wrapper.py"
             "hello.py" ["open"] open_profile world0 eq_refl eq_refl).
  - exact (main_outcome_for_existing_script loads_open_profile "sandbox_wrapper.py"
             "hello.py" [] DEFAULT_SECURITY_PROFILE world0 eq_refl eq_refl).
Defined.

(** X17. Setup errors end [main] with status 1 and leave the process as
    it was: too few arguments, a profile document that does not parse, or a
    script that does not exist. *)
Theorem main_setup_errors (json_loads : string -> option SecurityProfile)
    (argv : list string) (w : World)
    (H : (length argv < 2)%nat
         \/ (exists prog script_path document rest,
               argv = prog :: script_path :: document :: rest
               /\ json_loads document = None)
         \/ (exists prog script_path rest,
               argv = prog :: script_path :: rest
               /\ path_exists w script_path = false)) :
  main json_loads argv w = (Exited 1, w).
Proof.
  destruct H as [H | [(prog & sp & doc & rest & -> & Hj) | (prog & sp & rest & -> & Hex)]].
  - destruct argv as [|a [|b argv]]; cbn in H; try reflexivity; lia.
  - unfold main. rewrite Hj. reflexivity.
  - unfold main.
    destruct (match rest with
              | [] => Some DEFAULT_SECURITY_PROFILE
              | document :: _ => json_loads document
              end) as [security_profile|]; [|reflexivity].
    rewrite run_sandboxed_script_missing by exact Hex. reflexivity.
Qed.

Lemma main_setup_errors_witness :
  main loads_open_profile ["sandbox_wrapper.py"; "hello.py"; "{"] world0 = (Exited 1, world0)
  /\ main loads_open_profile ["sandbox_wrapper.py"; "absent.py"] world0
     = (Exited 1, world0).
Proof.
  split.
  - apply (main_setup_errors loads_open_profile). right; left.
    exists "sandbox_wrapper.py", "hello.py", "{", []. split; reflexivity.
  - apply (main_setup_errors loads_open_profile). right; right.
    exists "sandbox_wrapper.py", "absent.py", []. split; reflexivity.
Defined.

(** X18. [main] never ends with success: whatever the arguments, the
    parser and the process, it neither returns nor exits with status 0. *)
Theorem main_never_succeeds (json_loads : string -> option SecurityProfile)
    (argv : list string) (w : World) :
  fst (main json_loads argv w) <> Returned
  /\ fst (main json_loads argv w) <> Exited 0.
Proof.
  unfold main.
  destruct argv as [|prog [|script_path rest]]; [split; discriminate .. |].
  destruct (match rest with
            | [] => Some DEFAULT_SECURITY_PROFILE
            | document :: _ => json_loads document
            end) as [security_profile|]; [|split; discriminate].
  pose proof (run_sandboxed_script_raises script_path security_profile w) as R.
  destruct (run_sandboxed_script script_path security_profile w) as [[u|e] w'];
    cbn in R; [discriminate |].
  destruct e; split; discriminate.
Qed.

(** ** The [finally] loop over any list of guards *)

Lemma trace_restriction_exit (r : restriction) (w : World) :
  trace (snd (restriction_exit r w)) = trace w.
Proof.
  destruct r as [self|self|self|self]; cbn [restriction_exit snd]; try reflexivity.
  - unfold RestrictedNetwork_exit.
    destruct (import_stmt "socket" w) as [u|e].
    + destruct (original_socket self); reflexivity.
    + destruct (is_ImportError_or_AttributeError e); reflexivity.
  - unfold RestrictedEnvironment_exit.
    destruct (negb (allow_access self)); [|reflexivity].
    destruct (original_environ self); reflexivity.
Qed.

Lemma exit_all_returns (reversed : list restriction) (w w' : World) :
  exit_all reversed w = (Ok tt, w') ->
  exits_of (trace w') = (exits_of (trace w) ++ map kind_of reversed)%list.
Proof.
  revert w. induction reversed as [|r rest IH]; intros w H.
  - cbn in H. injection H as <-. cbn. symmetry. apply app_nil_r.
  - cbn [exit_all] in H.
    pose proof (trace_restriction_exit r (log_event (ExitCalled (kind_of r)) w)) as T.
    destruct (restriction_exit r (log_event (ExitCalled (kind_of r)) w)) as [[[]|e] w1];
      [|discriminate].
    rewrite (IH w1 H). cbn [snd] in T. rewrite T. cbn [trace log_event map].
    rewrite exits_of_app, <- app_assoc. reflexivity.
Qed.

(** X19. The deactivation loop calls [__exit__] on the guards in the order
    of the list it is given and stops at the first call that raises.  If
    it ends normally, the calls made are those of the whole list, in order.
    If it raises [e], the list splits into guards whose [__exit__] returned,
    the guard whose [__exit__] raised [e], and the rest; the calls made are
    those of the first part and that guard, the rest is never called, and
    the state left is the one that guard's [__exit__] left. *)
Theorem exit_all_stops_at_first_raise (reversed : list restriction) (w : World) :
  match exit_all reversed w with
  | (Ok _, w') =>
      exits_of (trace w') = (exits_of (trace w) ++ map kind_of reversed)%list
  | (Raise e, w') =>
      exists before r rest w1,
        reversed = (before ++ r :: rest)%list
        /\ exit_all before w = (Ok tt, w1)
        /\ restriction_exit r (log_event (ExitCalled (kind_of r)) w1) = (Raise e, w')
        /\ exits_of (trace w')
           = (exits_of (trace w) ++ map kind_of before ++ [kind_of r])%list
  end.
Proof.
  destruct (exit_all reversed w) as [[[]|e] w'] eqn:E.
  - now apply exit_all_returns.
  - revert w E. induction reversed as [|r rest IH]; intros w E; [discriminate |].
    cbn [exit_all] in E.
    pose proof (trace_restriction_exit r (log_event (ExitCalled (kind_of r)) w)) as T.
    destruct (restriction_exit r (log_event (ExitCalled (kind_of r)) w))
      as [[[]|e1] w1] eqn:R.
    + destruct (IH w1 E) as (before & r' & rest' & w2 & -> & Hb & Hr & Ht).
      exists (r :: before), r', rest', w2. split; [reflexivity |]. split.
      * cbn [exit_all]. rewrite R. exact Hb.
      * split; [exact Hr |]. rewrite Ht. cbn [snd] in T. rewrite T.
        cbn [trace log_event map]. rewrite exits_of_app, <- !app_assoc. reflexivity.
    + injection E as <- <-.
      exists [], r, rest, w. split; [reflexivity |]. split; [reflexivity |].
      split; [exact R |]. cbn [snd] in T. rewrite T. cbn [trace log_event map].
      rewrite exits_of_app. reflexivity.
Qed.

(** At the default profile: the loop over the four guards raises at the
    first, the environment guard, and calls no other. *)
Example exit_all_default_profile :
  let restrictions := apply_security_restrictions DEFAULT_SECURITY_PROFILE world0 in
  exits_of (trace (snd (exit_all (rev restrictions) world0))) = [G_environment]
  /\ is_Ok (fst (exit_all (rev restrictions) world0)) = false.
Proof. vm_compute. split; reflexivity. Qed.

(** ** [abspath] is a normal form *)

Lemma split_no_sep (sep : ascii) (s : string) :
  Forall (fun c => PyStr.contains_char sep c = false) (PyStr.split sep s).
Proof.
  induction s as [|c rest IH]; cbn [PyStr.split].
  - constructor; [reflexivity | constructor].
  - destruct (Ascii.eqb c sep) eqn:E.
    + constructor; [reflexivity | exact IH].
    + assert (E' : Ascii.eqb sep c = false) by (rewrite Ascii.eqb_sym; exact E).
      destruct (PyStr.split sep rest) as [|h t].
      * constructor; [cbn [PyStr.contains_char]; rewrite E'; reflexivity | constructor].
      * inversion IH as [|? ? Hh Ht]; subst.
        constructor; [cbn [PyStr.contains_char]; rewrite E', Hh; reflexivity | exact Ht].
Qed.

Lemma split_app_sep (sep : ascii) (c rest : string) :
  PyStr.contains_char sep c = false ->
  PyStr.split sep (c ++ String sep rest) = c :: PyStr.split sep rest.
Proof.
  induction c as [|a c IH]; intros H.
  - change ("" ++ String sep rest) with (String sep rest).
    cbn [PyStr.split]. rewrite Ascii.eqb_refl. reflexivity.
  - cbn [PyStr.contains_char] in H. apply orb_false_iff in H as [Ha Hc].
    change (String a c ++ String sep rest) with (String a (c ++ String sep rest)).
    cbn [PyStr.split].
    rewrite Ascii.eqb_sym, Ha, (IH Hc). reflexivity.
Qed.

Lemma split_without_sep (sep : ascii) (c : string) :
  PyStr.contains_char sep c = false -> PyStr.split sep c = [c].
Proof.
  induction c as [|a c IH]; intros H; [reflexivity |].
  cbn [PyStr.contains_char] in H. apply orb_false_iff in H as [Ha Hc].
  cbn [PyStr.split]. rewrite Ascii.eqb_sym, Ha, (IH Hc). reflexivity.
Qed.

Lemma split_concat_clean (comps : list string) :
  Forall clean_component comps -> comps <> [] ->
  PyStr.split "/" (String.concat "/" comps) = comps.
Proof.
  induction comps as [|c cs IH]; intros Hc Hne; [congruence |].
  inversion Hc as [|? ? (_ & _ & _ & Hsep) Hcs]; subst.
  destruct cs as [|c2 cs'].
  - cbn. now apply split_without_sep.
  - change (String.concat "/" (c :: c2 :: cs'))
      with (c ++ String "/" (String.concat "/" (c2 :: cs'))).
    rewrite split_app_sep by exact Hsep.
    rewrite IH by (assumption || discriminate). reflexivity.
Qed.

Lemma concat_clean_no_leading_slash (comps : list string) :
  Forall clean_component comps ->
  PyStr.startswith (String.concat "/" comps) "/" = false.
Proof.
  intros Hc. destruct (PyStr.startswith (String.concat "/" comps) "/") eqn:E;
    [|reflexivity].
  exfalso. apply startswith_slash_inv in E as [rest E].
  destruct comps as [|c cs]; [discriminate |].
  inversion Hc as [|? ? (Hne & _ & _ & Hsep) Hcs]; subst.
  destruct c as [|a c']; [congruence |].
  assert (Ha : a = "/"%char).
  { destruct cs; cbn in E; injection E; auto. }
  subst a. cbn in Hsep. discriminate.
Qed.

Lemma Forall_removelast {A} (P : A -> Prop) (l : list A) :
  Forall P l -> Forall P (removelast l).
Proof.
  induction 1 as [|x l Hx Hl IH]; [constructor |].
  destruct l; [constructor |]. cbn [removelast]. constructor; assumption.
Qed.

Lemma Forall_last {A} (P : A -> Prop) (l : list A) (d : A) :
  Forall P l -> l <> [] -> P (List.last l d).
Proof.
  induction 1 as [|x l Hx Hl IH]; intros Hne; [congruence |].
  destruct l; [exact Hx |]. apply IH. discriminate.
Qed.

Lemma normpath_step_clean (n : nat) (acc : list string) (comp : string) :
  n <> 0%nat -> Forall clean_component acc ->
  PyStr.contains_char "/" comp = false ->
  Forall clean_component (posixpath.normpath_step n acc comp).
Proof.
  intros Hn Hacc Hsep. unfold posixpath.normpath_step.
  destruct (String.eqb comp "") eqn:E1; [exact Hacc |].
  destruct (String.eqb comp ".") eqn:E2; [exact Hacc |].
  cbn [orb]. destruct (String.eqb comp "..") eqn:E3; cbn [negb orb].
  - apply Nat.eqb_neq in Hn. rewrite Hn. cbn [andb orb].
    destruct acc as [|a acc']; [constructor |].
    assert (L : clean_component (List.last (a :: acc') ""))
      by (apply Forall_last; [exact Hacc | discriminate]).
    destruct L as (_ & _ & L & _). apply String.eqb_neq in L. rewrite L.
    now apply Forall_removelast.
  - apply Forall_app. split; [exact Hacc |].
    constructor; [|constructor].
    apply String.eqb_neq in E1, E2, E3. repeat split; assumption.
Qed.

Lemma fold_normpath_step_clean (n : nat) (comps acc : list string) :
  n <> 0%nat -> Forall clean_component acc ->
  Forall (fun c => PyStr.contains_char "/" c = false) comps ->
  Forall clean_component (fold_left (posixpath.normpath_step n) comps acc).
Proof.
  intros Hn. revert acc. induction comps as [|c cs IH]; intros acc Hacc Hc; [exact Hacc |].
  inversion Hc; subst. cbn [fold_left]. apply IH; [|assumption].
  now apply normpath_step_clean.
Qed.

Lemma fold_normpath_step_keeps_clean (n : nat) (comps acc : list string) :
  Forall clean_component comps ->
  fold_left (posixpath.normpath_step n) comps acc = (acc ++ comps)%list.
Proof.
  revert acc. induction comps as [|c cs IH]; intros acc Hc.
  - symmetry. apply app_nil_r.
  - inversion Hc as [|? ? (H1 & H2 & H3 & _) Hcs]; subst. cbn [fold_left].
    unfold posixpath.normpath_step at 2.
    apply String.eqb_neq in H1, H2, H3. rewrite H1, H2, H3. cbn [orb negb].
    rewrite IH by exact Hcs. rewrite <- app_assoc. reflexivity.
Qed.

Lemma normpath_shape (q : string) :
  PyStr.startswith q "/" = true ->
  exists n comps,
    (n = 1 \/ n = 2)%nat
    /\ Forall clean_component comps
    /\ posixpath.normpath q = leading_slashes n ++ String.concat "/" comps.
Proof.
  intros H. destruct (startswith_slash_inv q H) as [rest ->].
  unfold posixpath.normpath. cbn [String.eqb].
  set (n := posixpath.initial_slashes_of (String "/" rest)).
  assert (Hn : (n = 1 \/ n = 2)%nat).
  { subst n. unfold posixpath.initial_slashes_of. rewrite H.
    destruct (_ && _); auto. }
  exists n, (fold_left (posixpath.normpath_step n) (PyStr.split "/" (String "/" rest)) []).
  split; [exact Hn |]. split.
  - apply fold_normpath_step_clean; [lia | constructor | apply split_no_sep].
  - generalize (String.concat "/"
                  (fold_left (posixpath.normpath_step n)
                             (PyStr.split "/" (String "/" rest)) [])).
    intros joined. destruct Hn as [-> | ->]; reflexivity.
Qed.

Lemma startswith_two_slashes (s : string) :
  PyStr.startswith (String "/" s) "//" = PyStr.startswith s "/".
Proof.
  unfold PyStr.startswith. cbn [String.prefix].
  destruct (Ascii.ascii_dec "/" "/"); [reflexivity | congruence].
Qed.

Lemma startswith_three_slashes (s : string) :
  PyStr.startswith (String "/" s) "///" = PyStr.startswith s "//".
Proof.
  unfold PyStr.startswith. cbn [String.prefix].
  destruct (Ascii.ascii_dec "/" "/"); [reflexivity | congruence].
Qed.

Lemma split_joined_clean (n : nat) (comps : list string) :
  Forall clean_component comps ->
  fold_left (posixpath.normpath_step n) (PyStr.split "/" (String.concat "/" comps)) []
  = comps.
Proof.
  intros Hc. destruct comps as [|c cs]; [reflexivity |].
  rewrite split_concat_clean by (assumption || discriminate).
  now rewrite fold_normpath_step_keeps_clean.
Qed.

Lemma normpath_of_shape (n : nat) (comps : list string) :
  (n = 1 \/ n = 2)%nat -> Forall clean_component comps ->
  posixpath.normpath (leading_slashes n ++ String.concat "/" comps)
  = leading_slashes n ++ String.concat "/" comps.
Proof.
  intros Hn Hc.
  pose proof (concat_clean_no_leading_slash comps Hc) as Hj.
  pose proof (split_joined_clean n comps Hc) as Hf.
  remember (String.concat "/" comps) as j eqn:Ej.
  destruct Hn as [-> | ->].
  - change (leading_slashes 1 ++ j) with (String "/" j).
    unfold posixpath.normpath. cbn [String.eqb].
    unfold posixpath.initial_slashes_of.
    rewrite startswith_cons_slash, startswith_two_slashes, Hj. cbn [andb].
    change (PyStr.split "/" (String "/" j)) with ("" :: PyStr.split "/" j).
    cbn [fold_left]. change (posixpath.normpath_step 1 [] "") with (@nil string).
    rewrite Hf, <- Ej. reflexivity.
  - change (leading_slashes 2 ++ j) with (String "/" (String "/" j)).
    unfold posixpath.normpath. cbn [String.eqb].
    unfold posixpath.initial_slashes_of.
    rewrite startswith_three_slashes, !startswith_two_slashes, !startswith_cons_slash, Hj.
    cbn [andb negb].
    change (PyStr.split "/" (String "/" (String "/" j)))
      with ("" :: "" :: PyStr.split "/" j).
    cbn [fold_left]. change (posixpath.normpath_step 2 [] "") with (@nil string).
    change (posixpath.normpath_step 2 [] "") with (@nil string).
    rewrite Hf, <- Ej. reflexivity.
Qed.

Lemma normpath_idempotent_absolute (q : string) :
  PyStr.startswith q "/" = true ->
  posixpath.normpath (posixpath.normpath q) = posixpath.normpath q.
Proof.
  intros H. destruct (normpath_shape q H) as (n & comps & Hn & Hc & ->).
  now apply normpath_of_shape.
Qed.

Lemma abspath_idempotent (cwd path : string) :
  PyStr.startswith cwd "/" = true ->
  posixpath.abspath cwd (posixpath.abspath cwd path) = posixpath.abspath cwd path.
Proof.
  intros Hc. pose proof (abspath_absolute cwd path Hc) as Ha.
  unfold posixpath.abspath at 1. rewrite Ha.
  unfold posixpath.abspath. destruct (PyStr.startswith path "/") eqn:Hp.
  - now apply normpath_idempotent_absolute.
  - apply normpath_idempotent_absolute. now apply join_absolute.
Qed.

(** X20. The check judges the canonical path, not its spelling: with an
    absolute working directory, a request and its [abspath] get the same
    answer in either mode, so relative segments, repeated or trailing
    separators in the request change nothing. *)
Theorem is_path_allowed_judges_abspath (self : RestrictedFileSystem)
    (cwd filepath : string) (write_mode : bool)
    (Hc : PyStr.startswith cwd "/" = true) :
  is_path_allowed self cwd (posixpath.abspath cwd filepath) write_mode
  = is_path_allowed self cwd filepath write_mode.
Proof.
  unfold is_path_allowed. rewrite abspath_idempotent by exact Hc. reflexivity.
Qed.

Lemma is_path_allowed_judges_abspath_witness :
  posixpath.abspath "/work" "/work//sub/../../etc/./passwd/" = "/etc/passwd"
  /\ is_path_allowed fs_work_readable "/work" "/work//sub/../../etc/./passwd/" false
     = is_path_allowed fs_work_readable "/work" "/etc/passwd" false.
Proof.
  split; [reflexivity |].
  symmetry.
  exact (is_path_allowed_judges_abspath fs_work_readable "/work"
           "/work//sub/../../etc/./passwd/" false eq_refl).
Defined.

(** ** What the guard stores and what lies below it *)

(** X21. The path lists the guard keeps are canonical: built in a process
    with an absolute working directory, every stored read or write entry is
    absolute and is its own [abspath]. *)
Theorem stored_paths_are_canonical (security_profile : SecurityProfile) (w : World)
    (Hc : PyStr.startswith (cwd w) "/" = true) :
  let self := fs_restrictor_of security_profile w in
  Forall (fun p => PyStr.startswith p "/" = true /\ posixpath.abspath (cwd w) p = p)
         (read_paths self ++ write_paths self)%list.
Proof.
  cbv zeta. unfold fs_restrictor_of, apply_security_restrictions.
  cbn [read_paths write_paths]. rewrite <- map_app. apply List.Forall_forall.
  intros p Hp. apply in_map_iff in Hp as (raw & <- & _).
  split; [now apply abspath_absolute | now apply abspath_idempotent].
Qed.

Lemma stored_paths_are_canonical_witness :
  read_paths (fs_restrictor_of open_profile world0) = ["/work"]
  /\ posixpath.abspath "/work" "/work" = "/work".
Proof.
  pose proof (stored_paths_are_canonical open_profile world0 eq_refl) as H.
  cbv zeta in H. apply Forall_inv in H as [_ H].
  split; [reflexivity | exact H].
Defined.

Lemma string_app_assoc (a b c : string) : (a ++ b) ++ c = a ++ (b ++ c).
Proof.
  induction a as [|x a IH]; [reflexivity |].
  change (String x ((a ++ b) ++ c) = String x (a ++ (b ++ c))). now rewrite IH.
Qed.

Lemma prefix_of_append (a b : string) : String.prefix a (a ++ b) = true.
Proof.
  induction a as [|x a IH].
  - change ("" ++ b) with b. destruct b; reflexivity.
  - change (String x a ++ b) with (String x (a ++ b)). cbn [String.prefix].
    destruct (Ascii.ascii_dec x x); [exact IH | congruence].
Qed.

Lemma concat_app_nonempty (comps names : list string) :
  comps <> [] -> names <> [] ->
  String.concat "/" (comps ++ names)
  = String.concat "/" comps ++ "/" ++ String.concat "/" names.
Proof.
  induction comps as [|c cs IH]; intros Hc Hn; [congruence |].
  destruct cs as [|c2 cs'].
  - destruct names as [|m ms]; [congruence |]. reflexivity.
  - change (String.concat "/" ((c :: c2 :: cs') ++ names))
      with (c ++ "/" ++ String.concat "/" ((c2 :: cs') ++ names)).
    rewrite IH by (assumption || discriminate).
    change (String.concat "/" (c :: c2 :: cs'))
      with (c ++ "/" ++ String.concat "/" (c2 :: cs')).
    rewrite !string_app_assoc. reflexivity.
Qed.

Lemma normpath_shape_nonempty (q : string) :
  PyStr.startswith q "/" = true ->
  posixpath.normpath q <> "/" -> posixpath.normpath q <> "//" ->
  exists n comps,
    (n = 1 \/ n = 2)%nat /\ Forall clean_component comps /\ comps <> []
    /\ posixpath.normpath q = leading_slashes n ++ String.concat "/" comps.
Proof.
  intros H N1 N2. destruct (normpath_shape q H) as (n & comps & Hn & Hc & E).
  exists n, comps. repeat split; try assumption.
  intros ->. rewrite E in N1, N2. destruct Hn as [-> | ->]; [apply N1 | apply N2];
    reflexivity.
Qed.

(** X22. Files below a stored entry are admitted: if a path list holds a
    canonical directory other than the root, then the request made of that
    entry, a separator and any chain of plain names passes the check for
    that list's mode. *)
Theorem path_below_entry_is_allowed (self : RestrictedFileSystem)
    (cwd entry : string) (names : list string) (write_mode : bool)
    (Hc : PyStr.startswith cwd "/" = true)
    (He : posixpath.abspath cwd entry = entry)
    (Hroot : entry <> "/" /\ entry <> "//")
    (Hin : In entry (if write_mode then write_paths self else read_paths self))
    (Hn : Forall clean_component names) (Hne : names <> []) :
  is_path_allowed self cwd (entry ++ "/" ++ String.concat "/" names) write_mode = true.
Proof.
  assert (Habs : PyStr.startswith entry "/" = true)
    by (rewrite <- He; now apply abspath_absolute).
  assert (Hnorm : posixpath.normpath entry = entry).
  { rewrite <- He at 2. unfold posixpath.abspath. now rewrite Habs. }
  destruct Hroot as [R1 R2].
  destruct (normpath_shape_nonempty entry Habs) as (n & comps & Hk & Hcl & Hcne & E);
    [rewrite Hnorm; exact R1 | rewrite Hnorm; exact R2 |].
  rewrite Hnorm in E.
  assert (Hreq : posixpath.abspath cwd (entry ++ "/" ++ String.concat "/" names)
                 = entry ++ "/" ++ String.concat "/" names).
  { assert (Hshape : entry ++ "/" ++ String.concat "/" names
                     = leading_slashes n ++ String.concat "/" (comps ++ names))
      by (rewrite concat_app_nonempty by assumption;
          rewrite E at 1; apply string_app_assoc).
    assert (Hstart : PyStr.startswith (entry ++ "/" ++ String.concat "/" names) "/" = true).
    { destruct (startswith_slash_inv entry Habs) as [rest ->].
      exact (startswith_cons_slash (rest ++ "/" ++ String.concat "/" names)). }
    unfold posixpath.abspath. rewrite Hstart, Hshape.
    apply normpath_of_shape; [exact Hk | apply Forall_app; split; assumption]. }
  unfold is_path_allowed. rewrite Hreq.
  destruct write_mode; apply existsb_exists; exists entry;
    (split; [exact Hin | apply prefix_of_append]).
Qed.

Lemma path_below_entry_is_allowed_witness :
  is_path_allowed fs_work_readable "/work" "/work/data/report.txt" false = true.
Proof.
  apply (path_below_entry_is_allowed fs_work_readable "/work" "/work"
           ["data"; "report.txt"] false).
  - reflexivity.
  - reflexivity.
  - split; discriminate.
  - simpl; tauto.
  - repeat constructor; try discriminate.
  - discriminate.
Defined.

(** ** The [system] section *)

(** X23. The [system] section of a profile ([allowed_calls],
    [allow_subprocesses]) is never read: replacing it by anything changes
    neither the guards that are built nor the run. *)
Theorem system_section_is_ignored (sys : option SystemProfile)
    (security_profile : SecurityProfile) (script_path : string) (w : World) :
  apply_security_restrictions (with_system sys security_profile) w
  = apply_security_restrictions security_profile w
  /\ run_sandboxed_script script_path (with_system sys security_profile) w
     = run_sandboxed_script script_path security_profile w.
Proof.
  assert (A : apply_security_restrictions (with_system sys security_profile) w
              = apply_security_restrictions security_profile w) by reflexivity.
  split; [exact A |].
  unfold run_sandboxed_script. rewrite A. reflexivity.
Qed.

(** ** Activation of the guard list *)

Lemma enters_of_app (t1 t2 : list event) :
  enters_of (t1 ++ t2)%list = (enters_of t1 ++ enters_of t2)%list.
Proof. apply omap_app. Qed.

Lemma socket_entered_through_network (security_profile : SecurityProfile) (w : World) :
  socket_socket (entered_through_network security_profile w) = socket_socket w.
Proof.
  unfold entered_through_network, apply_security_restrictions, RestrictedFileSystem_enter.
  cbn [allow_delete]. destruct (negb _); reflexivity.
Qed.

(** X24. Activating the guards of a profile never completes.  For every
    profile and every process state, the loop enters the import guard and
    the filesystem guard, calls the network guard's [__enter__], which
    raises [SecurityError] (its own [import socket] is refused by the hook
    just installed), and never calls the environment guard's.  It leaves
    [builtins.__import__] and [builtins.open] patched, and [socket.socket]
    and [os.environ] as they were. *)
Theorem activation_stops_at_network_guard (security_profile : SecurityProfile)
    (w : World) :
  let entered := enter_all (apply_security_restrictions security_profile w) w in
  let fs := fs_restrictor_of security_profile w in
  (exists msg, fst (fst entered) = Raise (SecurityError msg))
  /\ enters_of (trace (snd entered))
     = (enters_of (trace w) ++ [G_import; G_filesystem; G_network])%list
  /\ (exists allowed,
        builtins_import (snd entered) = secure_import_of allowed (builtins_import w))
  /\ builtins_open (snd entered) = bound_secure_open fs
  /\ socket_socket (snd entered) = socket_socket w
  /\ environ (snd entered) = environ w.
Proof.
  cbv zeta.
  destruct (enter_all_stops_at_network security_profile w) as [msg E]. rewrite E.
  cbn [fst snd].
  destruct (patches_entered_through_network security_profile w) as (_ & Ho & Hi & _).
  split; [eauto |]. split.
  - rewrite trace_entered_through_network, enters_of_app. reflexivity.
  - split; [exact Hi |]. split; [exact Ho |].
    split; [apply socket_entered_through_network | apply environ_entered_through_network].
Qed.
